(** * anallizator: the measurement store and the data-entry form

    A shallow embedding of
    - [context/MeasurementContext.tsx] (the measurement store held by
      [MeasurementProvider], and the accessor hook [useMeasurements]), and
    - [pages/DataEntry.tsx] ([validateForm] and [handleSubmit]),
    followed by the properties the specification states about them.

    JavaScript numbers are IEEE 754 binary64 values, which is what Rocq's
    primitive floats are, so form values are modelled as [float] and the
    checks of [validateForm] run exactly as they do in the browser. *)

From Stdlib Require Import Floats ZArith.
From Stdlib Require Import Ascii.
From stdpp Require Import gmap strings list sorting.

Local Open Scope Z_scope.

(* ===================================================================== *)
(** * JavaScript values *)
(* ===================================================================== *)

Module Js.

(** A property of a [Partial<...>] object read as [number | undefined]:
    [None] is [undefined]. *)
Definition value := option float.

(** [ToNumber]: [undefined] converts to [NaN]. *)
Definition to_number (v : value) : float :=
  match v with
  | Some x => x
  | None => PrimFloat.nan
  end.

(** [ToBoolean]: [undefined], [+0], [-0] and [NaN] are falsy, every other
    number is truthy. *)
Definition to_boolean (v : value) : bool :=
  match v with
  | Some x => negb (PrimFloat.eqb x 0 || PrimFloat.is_nan x)
  | None => false
  end.

(** [!v] *)
Definition lnot (v : value) : bool := negb (to_boolean v).

(** [v < k], [v <= k] and [v > k] against a numeric literal: both sides go
    through [ToNumber], and every comparison with [NaN] is [false]. *)
Definition lt (v : value) (k : float) : bool := PrimFloat.ltb (to_number v) k.
Definition le (v : value) (k : float) : bool := PrimFloat.leb (to_number v) k.
Definition gt (v : value) (k : float) : bool := PrimFloat.ltb k (to_number v).

(** [v || d]: [v] when it is truthy, otherwise [d]. *)
Definition lor (v : value) (d : float) : value :=
  if to_boolean v then v else Some d.

(** [v!], TypeScript's non-null assertion. It is erased at run time; it is
    only applied after [validateForm] succeeded, where the value is a
    number (lemma [validateForm_required_numbers] below). *)
Definition non_null (v : value) : float := to_number v.

(** A [Date] object holding a valid time value (milliseconds since the
    epoch, an integer).  [new Date()] always yields one. *)
Record Date := mkDate { getTime : Z }.

(** [new Date(d)] for a [Date] argument: a copy with the same time value. *)
Definition new_Date (d : Date) : Date := mkDate (getTime d).

(** The outcome of a call that may [throw new Error(message)]. *)
Inductive completion (A : Type) : Type :=
| Return (a : A)
| Throw (message : string).
Arguments Return {A} a.
Arguments Throw {A} message.

(** ** Strings

    A [string] is read as the sequence of its code units; the characters of
    Rocq's strings cover the code units below 256. *)

(** [ToBoolean] on a [string | undefined]: [undefined] and the empty string
    are falsy. *)
Definition string_to_boolean (v : option string) : bool :=
  match v with
  | Some s => negb (String.eqb s "")
  | None => false
  end.

(** The code units below 256 that ECMAScript counts as white space or line
    terminator, which is what [\s] matches and what [trim] strips: tab, line
    feed, vertical tab, form feed, carriage return, space and no-break
    space. *)
Definition is_white_space (c : Ascii.ascii) : bool :=
  let n := Ascii.nat_of_ascii c in
  ((9 <=? n) && (n <=? 13) || (n =? 32) || (n =? 160))%nat.

Fixpoint trimStart (s : string) : string :=
  match s with
  | EmptyString => EmptyString
  | String c s' => if is_white_space c then trimStart s' else s
  end.

Definition reverse (s : string) : string :=
  String.string_of_list_ascii (rev (String.list_ascii_of_string s)).

Definition trimEnd (s : string) : string := reverse (trimStart (reverse s)).

(** [s.trim()] *)
Definition trim (s : string) : string := trimEnd (trimStart s).

End Js.

(* ===================================================================== *)
(** * [types]: the records of the application *)
(* ===================================================================== *)

(** Modelled from the spec: [../types] is not part of the sources at hand;
    the fields are those of the specification's data model, and the use in
    [DataEntry.tsx] fixes which of them may be [undefined]
    ([metabolicAge] receives [formData.metabolicAge], a [number | undefined];
    the other optional fields receive a number). *)
Module User.
Inductive Gender := male | female | other.
Record t := mk {
  id : string;
  name : string;
  age : float;
  gender : Gender;
  height : float;
  email : option string;
}.
End User.

Module Measurement.
Record t := mk {
  id : string;
  userId : string;
  date : Js.Date;
  weight : float;
  bodyFatMass : float;
  bodyFatPercentage : float;
  skeletalMuscleMass : float;
  bmi : float;
  pbf : float;
  visceralFat : Js.value;
  waterPercentage : Js.value;
  basalMetabolicRate : Js.value;
  metabolicAge : Js.value;
}.
End Measurement.

(** [Partial<Measurement>], the type of the form state.  Only the numeric
    properties are listed: [validateForm] and [handleSubmit] read no other
    property of [formData], and the form has no input for the others. *)
Module PartialMeasurement.
Record t := mk {
  weight : Js.value;
  bodyFatMass : Js.value;
  bodyFatPercentage : Js.value;
  skeletalMuscleMass : Js.value;
  visceralFat : Js.value;
  waterPercentage : Js.value;
  basalMetabolicRate : Js.value;
  metabolicAge : Js.value;
}.

(** The initial [useState] value of [formData]; [metabolicAge] is not
    listed there, so it starts out [undefined]. *)
Definition initial : t :=
  mk (Some 0%float) (Some 0%float) (Some 0%float) (Some 0%float)
     (Some 0%float) (Some 0%float) (Some 0%float) None.
End PartialMeasurement.

(* ===================================================================== *)
(** * Arrays: objects in a heap, shared by reference *)
(* ===================================================================== *)

(** An array is an object: a variable holds a reference to it, and
    [Array.prototype.sort] reorders the object it is called on.  The heap
    maps a reference to the elements of the array stored there. *)
Module Array.

Abbreviation ref := nat (only parsing).
Abbreviation heap A := (gmap nat (list A)) (only parsing).

(** A computation over the heap. *)
Definition M (A B : Type) : Type := heap A → B * heap A.

Definition ret {A B} (b : B) : M A B := λ h, (b, h).
Definition bind {A B C} (m : M A B) (k : B → M A C) : M A C :=
  λ h, let '(b, h') := m h in k b h'.

Section ops.
Context {A : Type}.

(** The elements of the array at [r]. *)
Definition read (r : ref) (h : heap A) : list A := h !!! r.

(** An array literal: a new object at a reference not in use. *)
Definition alloc (xs : list A) : M A ref :=
  λ h, let r := fresh (dom h) in (r, <[r := xs]> h).

(** [[...a]] *)
Definition spread (a : ref) : M A ref :=
  λ h, alloc (read a h) h.

(** [[...a, x]] *)
Definition spread_with (a : ref) (x : A) : M A ref :=
  λ h, alloc (read a h ++ [x]) h.

(** [a.length] *)
Definition length (a : ref) : M A nat :=
  λ h, (List.length (read a h), h).

(** [a[i]], [undefined] past the end. *)
Definition get (a : ref) (i : nat) : M A (option A) :=
  λ h, (read a h !! i, h).

(** [a.find(p)]: the first element, in index order, on which [p] holds. *)
Definition find (p : A → bool) (a : ref) : M A (option A) :=
  λ h, (List.find p (read a h), h).

(** Stable ordering by a comparator.  [compareFn x y > 0] asks for [y]
    before [x]; otherwise [x], which came first, stays first. *)
Fixpoint insert (compareFn : A → A → Z) (x : A) (l : list A) : list A :=
  match l with
  | [] => [x]
  | y :: l' =>
      if 0 <? compareFn x y then y :: insert compareFn x l' else x :: y :: l'
  end.

Definition stable_sort (compareFn : A → A → Z) (l : list A) : list A :=
  foldr (insert compareFn) [] l.

(** [a.sort(compareFn)]: sorts the array object in place and returns the
    same reference.  ECMAScript requires the sort to be stable, so for a
    consistent comparator the resulting order is the one computed by
    [stable_sort]. *)
Definition sort (compareFn : A → A → Z) (a : ref) : M A ref :=
  λ h, (a, <[a := stable_sort compareFn (read a h)]> h).
End ops.

End Array.

#[global] Instance array_ret {A} : MRet (Array.M A) := @Array.ret A.
#[global] Instance array_bind {A} : MBind (Array.M A) :=
  λ B C k m, Array.bind m k.

(* ===================================================================== *)
(** * [context/MeasurementContext.tsx] *)
(* ===================================================================== *)

Module MeasurementContext.

(** The state of a mounted [MeasurementProvider]: the heap of array
    objects, and the [useState] cell [measurements], which holds a
    reference to the current array. *)
Record State := mkState {
  heap : gmap nat (list Measurement.t);
  measurements : nat;
}.

(** What a consumer reads as [measurements]. *)
Definition list_of (s : State) : list Measurement.t :=
  Array.read (measurements s) (heap s).

(** The cell refers to an array that exists. *)
Definition wf (s : State) : Prop := measurements s ∈ dom (heap s).

(** [useState<Measurement[]>(mockMeasurements)]: the cell starts out
    referring to the array [mockMeasurements] itself. *)
Definition MeasurementProvider (h : gmap nat (list Measurement.t))
    (mockMeasurements : nat) : State :=
  mkState h mockMeasurements.

(** [setMeasurements((prevMeasurements) => [...prevMeasurements, measurement])] *)
Definition addMeasurement (measurement : Measurement.t) (s : State) : State :=
  let '(next, h) := Array.spread_with (measurements s) measurement (heap s) in
  mkState h next.

(** [measurements.find((m) => m.id === id)] *)
Definition getMeasurementById (id : string) (s : State)
    : option Measurement.t * State :=
  let '(r, h) :=
    Array.find (λ m, String.eqb (Measurement.id m) id) (measurements s) (heap s) in
  (r, mkState h (measurements s)).

(** [(a, b) => new Date(b.date).getTime() - new Date(a.date).getTime()].
    Time values are integers of magnitude at most 8.64e15, so the sign of
    the binary64 difference is the sign of the exact difference. *)
Definition byDateDescending (a b : Measurement.t) : Z :=
  Js.getTime (Js.new_Date (Measurement.date b))
  - Js.getTime (Js.new_Date (Measurement.date a)).

Definition getLatestMeasurement (s : State) : option Measurement.t * State :=
  let '(r, h) :=
    (n ← Array.length (measurements s);
     if Nat.eqb n 0 then mret None
     else
       copy ← Array.spread (measurements s) ;
       sorted ← Array.sort byDateDescending copy ;
       Array.get sorted 0) (heap s) in
  (r, mkState h (measurements s)).

(** The value the provider hands to its consumers.  React renders the
    provider again after every state update, so the functions a consumer
    calls are those made from the state it observes: the context value is
    determined by that state. *)
Definition MeasurementContextType := State.

(** [useContext(MeasurementContext)]: the value of the nearest enclosing
    provider, or the default given to [createContext], [undefined], when
    the component is not below a provider. *)
Definition useContext (provider : option State) : option MeasurementContextType :=
  provider.

Definition useMeasurements (provider : option State)
    : Js.completion MeasurementContextType :=
  match useContext provider with
  | None => Js.Throw "useMeasurements must be used within a MeasurementProvider"
  | Some context => Js.Return context
  end.

(** The operations the context value offers, and a run of several. *)
Inductive Op :=
| AddMeasurement (m : Measurement.t)
| GetMeasurementById (id : string)
| GetLatestMeasurement.

Definition step (o : Op) (s : State) : State :=
  match o with
  | AddMeasurement m => addMeasurement m s
  | GetMeasurementById id => snd (getMeasurementById id s)
  | GetLatestMeasurement => snd (getLatestMeasurement s)
  end.

Definition run (ops : list Op) (s : State) : State :=
  foldl (λ s o, step o s) s ops.

(** [n] calls of [getLatestMeasurement] in a row, with their results. *)
Fixpoint repeat_getLatestMeasurement (n : nat) (s : State)
    : list (option Measurement.t) * State :=
  match n with
  | O => ([], s)
  | S n' =>
      let '(r, s') := getLatestMeasurement s in
      let '(rs, s'') := repeat_getLatestMeasurement n' s' in
      (r :: rs, s'')
  end.

End MeasurementContext.

(* ===================================================================== *)
(** * [pages/DataEntry.tsx] *)
(* ===================================================================== *)

Module DataEntry.

(** The three [useState] cells of the component. *)
Record State := mkState {
  formData : PartialMeasurement.t;
  errors : gmap string string;
  formSubmitted : bool;
}.

(** What [handleSubmit] acts upon: the component's own state, the
    measurement store obtained through [useMeasurements], and the router's
    current path. *)
Record App := mkApp {
  component : State;
  context : MeasurementContext.State;
  location : string;
}.

Definition setErrors (newErrors : gmap string string) (s : State) : State :=
  mkState (formData s) newErrors (formSubmitted s).

Definition setFormSubmitted (b : bool) (s : State) : State :=
  mkState (formData s) (errors s) b.

(** The mapping [newErrors] that [validateForm] builds. *)
Definition newErrors (formData : PartialMeasurement.t) : gmap string string :=
  let newErrors : gmap string string := ∅ in
  (* Required fields *)
  let newErrors :=
    if Js.lnot (PartialMeasurement.weight formData)
       || Js.le (PartialMeasurement.weight formData) 0
    then <["weight" := "Weight is required and must be greater than 0"]> newErrors
    else newErrors in
  let newErrors :=
    if Js.lnot (PartialMeasurement.bodyFatPercentage formData)
       || Js.lt (PartialMeasurement.bodyFatPercentage formData) 0
    then <["bodyFatPercentage" :=
             "Body fat percentage is required and must be non-negative"]> newErrors
    else newErrors in
  let newErrors :=
    if Js.lnot (PartialMeasurement.skeletalMuscleMass formData)
       || Js.le (PartialMeasurement.skeletalMuscleMass formData) 0
    then <["skeletalMuscleMass" :=
             "Skeletal muscle mass is required and must be greater than 0"]> newErrors
    else newErrors in
  (* Range validations *)
  let newErrors :=
    if Js.to_boolean (PartialMeasurement.bodyFatPercentage formData)
       && (Js.lt (PartialMeasurement.bodyFatPercentage formData) 0
           || Js.gt (PartialMeasurement.bodyFatPercentage formData) 100)
    then <["bodyFatPercentage" :=
             "Body fat percentage must be between 0 and 100"]> newErrors
    else newErrors in
  let newErrors :=
    if Js.to_boolean (PartialMeasurement.waterPercentage formData)
       && (Js.lt (PartialMeasurement.waterPercentage formData) 0
           || Js.gt (PartialMeasurement.waterPercentage formData) 100)
    then <["waterPercentage" :=
             "Water percentage must be between 0 and 100"]> newErrors
    else newErrors in
  newErrors.

(** [validateForm]: stores the mapping with [setErrors] and returns
    [Object.keys(newErrors).length === 0]. *)
Definition validateForm (s : State) : bool * State :=
  let newErrors := newErrors (formData s) in
  (Nat.eqb (size newErrors) 0, setErrors newErrors s).

(** The record [newMeasurement] that [handleSubmit] constructs; [id] is the
    result of [uuidv4()] and [date] that of [new Date()]. *)
Definition newMeasurement (calculateBMI : float → float → float)
    (user : User.t) (uuidv4 : string) (now : Js.Date)
    (formData : PartialMeasurement.t) : Measurement.t :=
  (* Calculate derived values *)
  let bmi :=
    calculateBMI (Js.non_null (PartialMeasurement.weight formData))
                 (User.height user) in
  let bodyFatMass :=
    (Js.non_null (PartialMeasurement.weight formData)
     * (Js.non_null (PartialMeasurement.bodyFatPercentage formData) / 100))%float in
  {| Measurement.id := uuidv4;
     Measurement.userId := User.id user;
     Measurement.date := now;
     Measurement.weight := Js.non_null (PartialMeasurement.weight formData);
     Measurement.bodyFatMass := bodyFatMass;
     Measurement.bodyFatPercentage :=
       Js.non_null (PartialMeasurement.bodyFatPercentage formData);
     Measurement.skeletalMuscleMass :=
       Js.non_null (PartialMeasurement.skeletalMuscleMass formData);
     Measurement.bmi := bmi;
     Measurement.pbf := Js.non_null (PartialMeasurement.bodyFatPercentage formData);
     Measurement.visceralFat := Js.lor (PartialMeasurement.visceralFat formData) 0;
     Measurement.waterPercentage :=
       Js.lor (PartialMeasurement.waterPercentage formData) 0;
     Measurement.basalMetabolicRate :=
       Js.lor (PartialMeasurement.basalMetabolicRate formData) 0;
     Measurement.metabolicAge := PartialMeasurement.metabolicAge formData |}.

(** [handleSubmit].  [calculateBMI] ([utils/healthCalculations]) is not part
    of the sources at hand and is taken as a parameter, as are the results
    of [uuidv4()] and [new Date()]. *)
Definition handleSubmit (calculateBMI : float → float → float)
    (user : User.t) (uuidv4 : string) (now : Js.Date) (a : App) : App :=
  let s := setFormSubmitted true (component a) in
  let '(valid, s) := validateForm s in
  if negb valid then
    mkApp s (context a) (location a)
  else
    let m := newMeasurement calculateBMI user uuidv4 now (formData s) in
    (* Add measurement to context *)
    let c := MeasurementContext.addMeasurement m (context a) in
    (* Navigate to dashboard *)
    mkApp s c "/".

(** The inputs of the form, by their [name] attribute; [handleChange] is the
    [onChange] handler of each of them. *)
Module Field.
Inductive t :=
| weight | bodyFatPercentage | skeletalMuscleMass
| visceralFat | waterPercentage | basalMetabolicRate | metabolicAge.

Definition name (f : t) : string :=
  match f with
  | weight => "weight"
  | bodyFatPercentage => "bodyFatPercentage"
  | skeletalMuscleMass => "skeletalMuscleMass"
  | visceralFat => "visceralFat"
  | waterPercentage => "waterPercentage"
  | basalMetabolicRate => "basalMetabolicRate"
  | metabolicAge => "metabolicAge"
  end.
End Field.

(** [formData[name]] *)
Definition field (name : Field.t) (formData : PartialMeasurement.t) : Js.value :=
  match name with
  | Field.weight => PartialMeasurement.weight formData
  | Field.bodyFatPercentage => PartialMeasurement.bodyFatPercentage formData
  | Field.skeletalMuscleMass => PartialMeasurement.skeletalMuscleMass formData
  | Field.visceralFat => PartialMeasurement.visceralFat formData
  | Field.waterPercentage => PartialMeasurement.waterPercentage formData
  | Field.basalMetabolicRate => PartialMeasurement.basalMetabolicRate formData
  | Field.metabolicAge => PartialMeasurement.metabolicAge formData
  end.

(** [{...formData, [name]: numberValue}] *)
Definition with_field (name : Field.t) (numberValue : float)
    (formData : PartialMeasurement.t) : PartialMeasurement.t :=
  let v := Some numberValue in
  let '(PartialMeasurement.mk w bfm bfp smm vf wp bmr ma) := formData in
  match name with
  | Field.weight => PartialMeasurement.mk v bfm bfp smm vf wp bmr ma
  | Field.bodyFatPercentage => PartialMeasurement.mk w bfm v smm vf wp bmr ma
  | Field.skeletalMuscleMass => PartialMeasurement.mk w bfm bfp v vf wp bmr ma
  | Field.visceralFat => PartialMeasurement.mk w bfm bfp smm v wp bmr ma
  | Field.waterPercentage => PartialMeasurement.mk w bfm bfp smm vf v bmr ma
  | Field.basalMetabolicRate => PartialMeasurement.mk w bfm bfp smm vf wp v ma
  | Field.metabolicAge => PartialMeasurement.mk w bfm bfp smm vf wp bmr v
  end.

Definition setFormData (formData : PartialMeasurement.t) (s : State) : State :=
  mkState formData (errors s) (formSubmitted s).

(** [handleChange], for the input [name]; [numberValue] is
    [parseFloat(value)], which is [NaN] when the input has been emptied. *)
Definition handleChange (name : Field.t) (numberValue : float) (s : State) : State :=
  let s' := setFormData (with_field name numberValue (formData s)) s in
  (* Clear error when field is modified *)
  if Js.string_to_boolean (errors s !! Field.name name)
  then setErrors (<[Field.name name := ""]> (errors s)) s'
  else s'.

(** [handleCancel]: [navigate('/')]. *)
Definition handleCancel (a : App) : App :=
  mkApp (component a) (context a) "/".

(** What the rendered form shows.  The summary line "Please correct the
    errors above before submitting." is rendered under
    [formSubmitted && Object.keys(errors).length > 0]. *)
Definition errorSummaryShown (s : State) : bool :=
  formSubmitted s && (0 <? size (errors s))%nat.

(** [value={formData.x || ''}]: the number shown in the input [x], or
    nothing (the empty string) when the value is falsy. *)
Definition inputValue (name : Field.t) (s : State) : option float :=
  if Js.to_boolean (field name (formData s))
  then field name (formData s)
  else None.

(** [{errors.x && <p>{errors.x}</p>}]: the message below the input [x], if
    one is rendered.  The inputs [visceralFat], [basalMetabolicRate] and
    [metabolicAge] have no such line. *)
Definition messageShown (name : Field.t) (s : State) : option string :=
  match name with
  | Field.visceralFat | Field.basalMetabolicRate | Field.metabolicAge => None
  | _ =>
      if Js.string_to_boolean (errors s !! Field.name name)
      then errors s !! Field.name name
      else None
  end.

End DataEntry.

(* ===================================================================== *)
(** * Regular expressions *)
(* ===================================================================== *)

(** The fragment of regular expressions that the code uses: character
    classes, concatenation and [+], matched against a whole string (the
    pattern is anchored with [^] and [$]).  [test] decides the match by
    derivatives. *)
Module RegExp.

Inductive t :=
| Never
| Empty
| Class (p : Ascii.ascii → bool)
| Seq (r1 r2 : t)
| Alt (r1 r2 : t)
| Star (r : t).

(** [r+] *)
Definition Plus (r : t) : t := Seq r (Star r).

Fixpoint nullable (r : t) : bool :=
  match r with
  | Never => false
  | Empty => true
  | Class _ => false
  | Seq r1 r2 => nullable r1 && nullable r2
  | Alt r1 r2 => nullable r1 || nullable r2
  | Star _ => true
  end.

Fixpoint derive (c : Ascii.ascii) (r : t) : t :=
  match r with
  | Never => Never
  | Empty => Never
  | Class p => if p c then Empty else Never
  | Seq r1 r2 =>
      if nullable r1
      then Alt (Seq (derive c r1) r2) (derive c r2)
      else Seq (derive c r1) r2
  | Alt r1 r2 => Alt (derive c r1) (derive c r2)
  | Star r' => Seq (derive c r') (Star r')
  end.

Fixpoint matches_list (r : t) (s : list Ascii.ascii) : bool :=
  match s with
  | [] => nullable r
  | c :: s' => matches_list (derive c r) s'
  end.

(** [/^r$/.test(s)] *)
Definition test (r : t) (s : string) : bool :=
  matches_list r (String.list_ascii_of_string s).

End RegExp.

(* ===================================================================== *)
(** * The profile page *)
(* ===================================================================== *)

Module Profile.

(** The three [useState] cells of the component. *)
Record State := mkState {
  formData : User.t;
  errors : gmap string string;
  successMessage : string;
}.

(** The first render: [useState<User>(user || { id: '1', name: '', ... })]. *)
Definition initial (user : option User.t) : State :=
  mkState
    (default {| User.id := "1"; User.name := ""; User.age := 0;
                User.gender := User.male; User.height := 0;
                User.email := Some "" |} user)
    ∅ "".

Definition setFormData (formData : User.t) (s : State) : State :=
  mkState formData (errors s) (successMessage s).

Definition setErrors (newErrors : gmap string string) (s : State) : State :=
  mkState (formData s) newErrors (successMessage s).

Definition setSuccessMessage (m : string) (s : State) : State :=
  mkState (formData s) (errors s) m.

(** A change event, by the control it comes from: the text input [name],
    the email input, the number inputs [age] and [height] (with the text in
    the input), and the [gender] select (with the chosen option). *)
Inductive ChangeEvent :=
| NameInput (value : string)
| EmailInput (value : string)
| AgeInput (value : string)
| GenderSelect (value : User.Gender)
| HeightInput (value : string).

(** [e.target.name] *)
Definition target_name (e : ChangeEvent) : string :=
  match e with
  | NameInput _ => "name"
  | EmailInput _ => "email"
  | AgeInput _ => "age"
  | GenderSelect _ => "gender"
  | HeightInput _ => "height"
  end.

(** [value === '' ? 0 : parseFloat(value)] *)
Definition numberValue (parseFloat : string → float) (value : string) : float :=
  if String.eqb value "" then 0%float else parseFloat value.

(** [handleChange]: [{...formData, [name]: numberValue}] for the inputs of
    type [number], [{...formData, [name]: value}] for the others; then the
    message of the field is blanked if there is one. *)
Definition handleChange (parseFloat : string → float) (e : ChangeEvent)
    (s : State) : State :=
  let fd := formData s in
  let fd' :=
    match e with
    | NameInput value =>
        User.mk (User.id fd) value (User.age fd) (User.gender fd)
                (User.height fd) (User.email fd)
    | EmailInput value =>
        User.mk (User.id fd) (User.name fd) (User.age fd) (User.gender fd)
                (User.height fd) (Some value)
    | AgeInput value =>
        User.mk (User.id fd) (User.name fd) (numberValue parseFloat value)
                (User.gender fd) (User.height fd) (User.email fd)
    | GenderSelect value =>
        User.mk (User.id fd) (User.name fd) (User.age fd) value
                (User.height fd) (User.email fd)
    | HeightInput value =>
        User.mk (User.id fd) (User.name fd) (User.age fd) (User.gender fd)
                (numberValue parseFloat value) (User.email fd)
    end in
  let s' := setFormData fd' s in
  (* Clear error when field is modified *)
  if Js.string_to_boolean (errors s !! target_name e)
  then setErrors (<[target_name e := ""]> (errors s)) s'
  else s'.

(** [[^\s@]]: any code unit that is neither white space nor [@]. *)
Definition plain (c : Ascii.ascii) : bool :=
  negb (Js.is_white_space c || Ascii.eqb c "@"%char).

(** [/^[^\s@]+@[^\s@]+\.[^\s@]+$/] *)
Definition emailPattern : RegExp.t :=
  RegExp.Seq (RegExp.Plus (RegExp.Class plain))
    (RegExp.Seq (RegExp.Class (λ c, Ascii.eqb c "@"%char))
       (RegExp.Seq (RegExp.Plus (RegExp.Class plain))
          (RegExp.Seq (RegExp.Class (λ c, Ascii.eqb c "."%char))
             (RegExp.Plus (RegExp.Class plain))))).

(** The mapping [newErrors] that [validateForm] builds. *)
Definition newErrors (formData : User.t) : gmap string string :=
  let newErrors : gmap string string := ∅ in
  (* Name validation *)
  let newErrors :=
    if negb (Js.string_to_boolean (Some (Js.trim (User.name formData))))
    then <["name" := "Name is required"]> newErrors
    else newErrors in
  (* Age validation *)
  let newErrors :=
    if Js.lnot (Some (User.age formData)) || Js.le (Some (User.age formData)) 0
    then <["age" := "Age must be greater than 0"]> newErrors
    else newErrors in
  (* Height validation *)
  let newErrors :=
    if Js.lnot (Some (User.height formData))
       || Js.le (Some (User.height formData)) 0
    then <["height" := "Height must be greater than 0"]> newErrors
    else newErrors in
  (* Email validation (optional field) *)
  let newErrors :=
    if Js.string_to_boolean (User.email formData)
       && negb (RegExp.test emailPattern (default "" (User.email formData)))
    then <["email" := "Invalid email format"]> newErrors
    else newErrors in
  newErrors.

(** [validateForm]: stores the mapping with [setErrors] and returns
    [Object.keys(newErrors).length === 0]. *)
Definition validateForm (s : State) : bool * State :=
  let newErrors := newErrors (formData s) in
  (Nat.eqb (size newErrors) 0, setErrors newErrors s).

(** The function passed to [setTimeout]: [() => setSuccessMessage('')]. *)
Inductive Callback := ClearSuccessMessage.

Definition call (f : Callback) (s : State) : State :=
  match f with
  | ClearSuccessMessage => setSuccessMessage "" s
  end.

(** What [handleSubmit] acts upon: the component's state, the user store
    behind [useUser] (any type [U], written through [updateUser]), and the
    timeouts set and not yet run, each with its delay in milliseconds. *)
Record App (U : Type) := mkApp {
  component : State;
  userContext : U;
  timeouts : list (Callback * Z);
}.
Arguments mkApp {U} _ _ _.
Arguments component {U} _.
Arguments userContext {U} _.
Arguments timeouts {U} _.

(** [handleSubmit].  [updateUser] ([context/UserContext]) is not part of
    the sources at hand and is taken as a parameter. *)
Definition handleSubmit {U : Type} (updateUser : User.t → U → U)
    (a : App U) : App U :=
  let '(valid, s) := validateForm (component a) in
  if negb valid then
    mkApp s (userContext a) (timeouts a)
  else
    (* Update user in context *)
    let u := updateUser (formData s) (userContext a) in
    (* Show success message *)
    let s := setSuccessMessage "Profile updated successfully!" s in
    (* Clear success message after 3 seconds *)
    mkApp s u (timeouts a ++ [(ClearSuccessMessage, 3000)]).

End Profile.

(* ===================================================================== *)
(** * Notions used to state the properties *)
(* ===================================================================== *)

(** Comparators of the shape [(a, b) => key(b) - key(a)], which order by
    [key], greatest first. *)
Section order.
Context {A : Type} (key : A → Z).

Definition descending (x y : A) : Z := key y - key x.

(** [x] may stand in front of [y] in the sorted order. *)
Definition before (x y : A) : Prop := key y ≤ key x.

Definition same_key (k : Z) (x : A) : bool := Z.eqb (key x) k.

End order.

(** The time value a measurement is ordered by. *)
Definition time (m : Measurement.t) : Z := Js.getTime (Measurement.date m).

(** [0 < v], for a value that may be [undefined]. *)
Definition is_positive (v : Js.value) : bool :=
  match v with
  | Some x => PrimFloat.ltb 0 x
  | None => false
  end.

(** [0 < v <= 100] *)
Definition is_percentage (v : Js.value) : bool :=
  match v with
  | Some x => PrimFloat.ltb 0 x && PrimFloat.leb x 100
  | None => false
  end.

(** The measurements that a run of store operations adds, in order. *)
Definition added (ops : list MeasurementContext.Op) : list Measurement.t :=
  omap (λ o, match o with
             | MeasurementContext.AddMeasurement m => Some m
             | _ => None
             end) ops.

(** The string has a character that is not white space. *)
Definition not_blank (s : string) : bool :=
  existsb (λ c, negb (Js.is_white_space c)) (String.list_ascii_of_string s).

(** The email check of the profile form passes: there is no email (it is
    [undefined] or empty), or it matches the pattern. *)
Definition email_ok (email : option string) : bool :=
  negb (Js.string_to_boolean email)
  || RegExp.test Profile.emailPattern (default "" email).

(** A non-empty string without white space and without [@]. *)
Definition plain_text (s : string) : Prop :=
  s ≠ "" ∧ Forall (λ c, Profile.plain c = true) (String.list_ascii_of_string s).

(** The language of a regular expression. *)
Inductive matches : RegExp.t → list Ascii.ascii → Prop :=
| matches_empty : matches RegExp.Empty []
| matches_class p c : p c = true → matches (RegExp.Class p) [c]
| matches_seq r1 r2 s1 s2 :
    matches r1 s1 → matches r2 s2 → matches (RegExp.Seq r1 r2) (s1 ++ s2)
| matches_alt_l r1 r2 s : matches r1 s → matches (RegExp.Alt r1 r2) s
| matches_alt_r r1 r2 s : matches r2 s → matches (RegExp.Alt r1 r2) s
| matches_star_nil r : matches (RegExp.Star r) []
| matches_star_cons r s1 s2 :
    matches r s1 → matches (RegExp.Star r) s2 → matches (RegExp.Star r) (s1 ++ s2).

Section checks.
Implicit Types fd : PartialMeasurement.t.

(** The five checks of [validateForm], as conditions on the form data. *)
Definition weight_missing fd : bool :=
  Js.lnot (PartialMeasurement.weight fd) || Js.le (PartialMeasurement.weight fd) 0.
Definition bodyFat_missing fd : bool :=
  Js.lnot (PartialMeasurement.bodyFatPercentage fd)
  || Js.lt (PartialMeasurement.bodyFatPercentage fd) 0.
Definition muscle_missing fd : bool :=
  Js.lnot (PartialMeasurement.skeletalMuscleMass fd)
  || Js.le (PartialMeasurement.skeletalMuscleMass fd) 0.
Definition bodyFat_out_of_range fd : bool :=
  Js.to_boolean (PartialMeasurement.bodyFatPercentage fd)
  && (Js.lt (PartialMeasurement.bodyFatPercentage fd) 0
      || Js.gt (PartialMeasurement.bodyFatPercentage fd) 100).
Definition water_out_of_range fd : bool :=
  Js.to_boolean (PartialMeasurement.waterPercentage fd)
  && (Js.lt (PartialMeasurement.waterPercentage fd) 0
      || Js.gt (PartialMeasurement.waterPercentage fd) 100).

Definition passes fd : bool :=
  negb (weight_missing fd) && negb (bodyFat_missing fd) && negb (muscle_missing fd)
  && negb (bodyFat_out_of_range fd) && negb (water_out_of_range fd).

End checks.

(* ===================================================================== *)
(** * Sample data *)
(* ===================================================================== *)

Module Examples.

(** A complete reading with the given id, time value and weight. *)
Definition reading (id : string) (t : Z) (weight : float) : Measurement.t :=
  {| Measurement.id := id;
     Measurement.userId := "1";
     Measurement.date := Js.mkDate t;
     Measurement.weight := weight;
     Measurement.bodyFatMass := 16;
     Measurement.bodyFatPercentage := 20;
     Measurement.skeletalMuscleMass := 35;
     Measurement.bmi := 24.5;
     Measurement.pbf := 20;
     Measurement.visceralFat := Some 8%float;
     Measurement.waterPercentage := Some 55%float;
     Measurement.basalMetabolicRate := Some 1700%float;
     Measurement.metabolicAge := Some 30%float |}.

Definition jan : Measurement.t := reading "jan" 1704067200000 80.
Definition feb_a : Measurement.t := reading "feb-a" 1706745600000 79.
Definition feb_b : Measurement.t := reading "feb-b" 1706745600000 78.
Definition dec : Measurement.t := reading "dec" 1701388800000 81.

(** A second record that reuses the id of [jan]. *)
Definition jan_again : Measurement.t := reading "jan" 1709251200000 77.

(** A provider whose [mockMeasurements] array sits at reference 0. *)
Definition store (mockMeasurements : list Measurement.t) : MeasurementContext.State :=
  MeasurementContext.MeasurementProvider {[ 0%nat := mockMeasurements ]} 0%nat.

(** The invariants the specification's data model lists for a
    [Measurement]: weight > 0, 0 ≤ bodyFatPercentage ≤ 100,
    skeletalMuscleMass > 0 and, if present, 0 ≤ waterPercentage ≤ 100. *)
Definition valid (m : Measurement.t) : bool :=
  PrimFloat.ltb 0 (Measurement.weight m)
  && PrimFloat.leb 0 (Measurement.bodyFatPercentage m)
  && PrimFloat.leb (Measurement.bodyFatPercentage m) 100
  && PrimFloat.ltb 0 (Measurement.skeletalMuscleMass m)
  && match Measurement.waterPercentage m with
     | Some w => PrimFloat.leb 0 w && PrimFloat.leb w 100
     | None => true
     end.

Definition user : User.t :=
  {| User.id := "1"; User.name := "Ann"; User.age := 30;
     User.gender := User.female; User.height := 180;
     User.email := None |}.

(** A stand-in for [calculateBMI]: kilograms over metres squared. *)
Definition calculateBMI (weight height : float) : float :=
  (weight / ((height / 100) * (height / 100)))%float.

(** The binary64 value that the literal [0.1] denotes. *)
Definition tenth : float := 0x1.999999999999ap-4%float.

(** The form as first rendered, with the given required fields typed in. *)
Definition form (weight bodyFatPercentage skeletalMuscleMass : float)
    : PartialMeasurement.t :=
  {| PartialMeasurement.weight := Some weight;
     PartialMeasurement.bodyFatMass := Some 0%float;
     PartialMeasurement.bodyFatPercentage := Some bodyFatPercentage;
     PartialMeasurement.skeletalMuscleMass := Some skeletalMuscleMass;
     PartialMeasurement.visceralFat := Some 0%float;
     PartialMeasurement.waterPercentage := Some 0%float;
     PartialMeasurement.basalMetabolicRate := Some 0%float;
     PartialMeasurement.metabolicAge := None |}.

(** The page showing the given form data, over a store that holds [jan]. *)
Definition app (formData : PartialMeasurement.t) : DataEntry.App :=
  DataEntry.mkApp (DataEntry.mkState formData ∅ false) (store [jan]) "/data-entry".

Definition submit (a : DataEntry.App) : DataEntry.App :=
  DataEntry.handleSubmit calculateBMI user "c0ffee" (Js.mkDate 1711929600000) a.

(** The component after the user typed 80, 20 and 35 into the three
    required inputs of the freshly rendered form. *)
Definition typed : DataEntry.State :=
  DataEntry.handleChange DataEntry.Field.skeletalMuscleMass 35
    (DataEntry.handleChange DataEntry.Field.bodyFatPercentage 20
       (DataEntry.handleChange DataEntry.Field.weight 80
          (DataEntry.mkState PartialMeasurement.initial ∅ false))).

(** The same after the user typed 12 into the visceral fat input and then
    emptied it again ([parseFloat('')] is [NaN]). *)
Definition typed_and_emptied : DataEntry.State :=
  DataEntry.handleChange DataEntry.Field.visceralFat PrimFloat.nan
    (DataEntry.handleChange DataEntry.Field.visceralFat 12 typed).

(** The page in the given component state, over a store that holds [jan]. *)
Definition page (s : DataEntry.State) : DataEntry.App :=
  DataEntry.mkApp s (store [jan]) "/data-entry".

End Examples.

(* ===================================================================== *)
(** * The ordering computed by [Array.stable_sort] *)
(* ===================================================================== *)

Section stable_sort.
Context {A : Type}.
Implicit Types (x y : A) (l : list A).

Section any_comparator.
Variable compareFn : A → A → Z.

Lemma insert_perm x l : Array.insert compareFn x l ≡ₚ x :: l.
Proof.
  induction l as [|y l IH]; simpl; [done|].
  destruct (0 <? compareFn x y); [|done].
  rewrite IH. apply Permutation_swap.
Qed.

Lemma stable_sort_perm l : Array.stable_sort compareFn l ≡ₚ l.
Proof.
  induction l as [|x l IH]; simpl; [done|].
  rewrite insert_perm. by f_equiv.
Qed.

Lemma stable_sort_length l :
  length (Array.stable_sort compareFn l) = length l.
Proof. apply Permutation_length, stable_sort_perm. Qed.

Lemma stable_sort_elem_of x l : x ∈ Array.stable_sort compareFn l ↔ x ∈ l.
Proof. by rewrite stable_sort_perm. Qed.

(** The first element after an insertion. *)
Lemma head_insert x l :
  head (Array.insert compareFn x l) =
  match head l with
  | None => Some x
  | Some y => if 0 <? compareFn x y then Some y else Some x
  end.
Proof. destruct l as [|y l]; simpl; [done|]. by destruct (0 <? compareFn x y). Qed.

End any_comparator.

(** Comparators of the shape [(a, b) => key(b) - key(a)]: descending by
    [key]. *)
Section descending.
Variable key : A → Z.



Lemma insert_sorted x l :
  StronglySorted (before key) l →
  StronglySorted (before key) (Array.insert (descending key) x l).
Proof.
  induction 1 as [|y l Hl IH Hy]; simpl.
  - repeat constructor.
  - unfold descending at 1. destruct (Z.ltb_spec 0 (key y - key x)) as [Hlt|Hge].
    + constructor; [done|].
      rewrite insert_perm. constructor; [unfold before; lia|done].
    + constructor; [by constructor|].
      constructor; [unfold before; lia|].
      eapply Forall_impl; [exact Hy|]. unfold before. intros z ?. lia.
Qed.

Lemma stable_sort_sorted l :
  StronglySorted (before key) (Array.stable_sort (descending key) l).
Proof.
  induction l as [|x l IH]; simpl; [constructor|]. by apply insert_sorted.
Qed.

(** Elements with equal keys keep their relative order. *)
Lemma insert_same_key k x l :
  StronglySorted (before key) l →
  filter (λ y, same_key key k y) (Array.insert (descending key) x l) =
  filter (λ y, same_key key k y) (x :: l).
Proof.
  induction 1 as [|y l Hl IH Hy]; simpl; [done|].
  unfold descending at 1. destruct (Z.ltb_spec 0 (key y - key x)) as [Hlt|Hge]; [|done].
  rewrite !filter_cons. rewrite filter_cons in IH.
  unfold same_key in *.
  destruct (Z.eqb_spec (key y) k) as [Hy'|Hy'];
    destruct (Z.eqb_spec (key x) k) as [Hx'|Hx']; simpl in *.
  - lia.
  - by rewrite IH.
  - rewrite IH. done.
  - by rewrite IH.
Qed.

Lemma stable_sort_stable k l :
  filter (λ y, same_key key k y) (Array.stable_sort (descending key) l) =
  filter (λ y, same_key key k y) l.
Proof.
  induction l as [|x l IH]; simpl; [done|].
  rewrite insert_same_key by apply stable_sort_sorted.
  rewrite !filter_cons. by rewrite IH.
Qed.

(** The element that ends up first: the earliest one among those of
    greatest key. *)
Lemma head_stable_sort l1 x l2 :
  Forall (λ y, key y < key x) l1 →
  Forall (λ y, key y ≤ key x) l2 →
  head (Array.stable_sort (descending key) (l1 ++ x :: l2)) = Some x.
Proof.
  intros H1 H2. induction H1 as [|y l1 Hy H1 IH]; simpl.
  - rewrite head_insert.
    destruct (head (Array.stable_sort (descending key) l2)) as [z|] eqn:Hz; [|done].
    assert (z ∈ l2) as Hin.
    { apply (stable_sort_elem_of (descending key)). apply head_Some in Hz as [l' ->]. left. }
    rewrite Forall_forall in H2. specialize (H2 z Hin).
    unfold descending. by destruct (Z.ltb_spec 0 (key z - key x)); [lia|].
  - rewrite head_insert, IH. unfold descending.
    by destruct (Z.ltb_spec 0 (key x - key y)); [|lia].
Qed.

(** Every non-empty list splits at the earliest element of greatest key. *)
Lemma first_maximum_exists l :
  l ≠ [] →
  ∃ l1 x l2, l = l1 ++ x :: l2
    ∧ Forall (λ y, key y < key x) l1 ∧ Forall (λ y, key y ≤ key x) l2.
Proof.
  induction l as [|y l IH]; [done|]. intros _.
  destruct l as [|z l].
  { exists [], y, []. by repeat constructor. }
  destruct IH as (l1 & x & l2 & Heq & H1 & H2); [done|].
  destruct (Z.lt_ge_cases (key y) (key x)) as [Hlt|Hge].
  - exists (y :: l1), x, l2. rewrite Heq. split; [done|]. split; [by constructor|done].
  - exists [], y, (z :: l). split; [done|]. split; [constructor|].
    rewrite Heq. apply Forall_app. split.
    + eapply Forall_impl; [exact H1|]. simpl. intros; lia.
    + constructor; [lia|]. eapply Forall_impl; [exact H2|]. simpl. intros; lia.
Qed.

Lemma filter_same_key_head x l :
  filter (λ y, same_key key (key x) y) (x :: l) =
  x :: filter (λ y, same_key key (key x) y) l.
Proof.
  rewrite filter_cons_True; [done|]. unfold same_key. by rewrite Z.eqb_refl.
Qed.

Lemma filter_same_key_elem_of k x l :
  x ∈ filter (λ y, same_key key k y) l ↔ key x = k ∧ x ∈ l.
Proof.
  rewrite list_elem_of_filter. unfold same_key.
  destruct (Z.eqb_spec (key x) k); simpl; tauto.
Qed.

(** A stable (descending key) ordering of a list is unique: the three properties
    above determine the result of the sort. *)
Lemma sorted_stable_unique l l' :
  StronglySorted (before key) l → StronglySorted (before key) l' →
  (∀ k, filter (λ y, same_key key k y) l = filter (λ y, same_key key k y) l') →
  l = l'.
Proof.
  intros Hl. revert l'. induction Hl as [|x l Hl IH Hx]; intros l' Hl' Hf.
  - destruct l' as [|y l']; [done|].
    specialize (Hf (key y)). by rewrite filter_same_key_head in Hf.
  - destruct Hl' as [|y l' Hl' Hy].
    { specialize (Hf (key x)). by rewrite filter_same_key_head in Hf. }
    assert (key x = key y) as Hk.
    { assert (x ∈ y :: l') as Hxin.
      { eapply (filter_same_key_elem_of (key x)). rewrite <- Hf.
        rewrite filter_same_key_head. left. }
      assert (y ∈ x :: l) as Hyin.
      { eapply (filter_same_key_elem_of (key y)). rewrite Hf.
        rewrite filter_same_key_head. left. }
      rewrite Forall_forall in Hx, Hy. unfold before in *.
      apply elem_of_cons in Hxin as [->|Hxin]; [done|].
      apply elem_of_cons in Hyin as [->|Hyin]; [done|].
      specialize (Hx _ Hyin). specialize (Hy _ Hxin). lia. }
    assert (x = y) as ->.
    { specialize (Hf (key x)). rewrite filter_same_key_head in Hf.
      rewrite Hk, filter_same_key_head in Hf. congruence. }
    f_equal. apply IH; [done|]. intros k. specialize (Hf k).
    rewrite !filter_cons in Hf. destruct (decide (same_key key k y)); congruence.
Qed.

Lemma stable_sort_unique l l' :
  StronglySorted (before key) l' →
  (∀ k, filter (λ y, same_key key k y) l' = filter (λ y, same_key key k y) l) →
  l' = Array.stable_sort (descending key) l.
Proof.
  intros Hs Hf. apply sorted_stable_unique; [done|apply stable_sort_sorted|].
  intros k. by rewrite stable_sort_stable.
Qed.

End descending.
End stable_sort.

(* ===================================================================== *)
(** * The measurement store *)
(* ===================================================================== *)

Module MeasurementContextFacts.
Import MeasurementContext.

Implicit Types (s : State) (m : Measurement.t).


Lemma byDateDescending_descending :
  byDateDescending = descending time.
Proof. reflexivity. Qed.

(** ** Reading and allocating arrays *)

Lemma read_alloc {A} (xs : list A) h :
  Array.read (Array.alloc xs h).1 (Array.alloc xs h).2 = xs.
Proof. unfold Array.read, Array.alloc. simpl. apply lookup_total_insert_eq. Qed.

Lemma alloc_fresh {A} (xs : list A) h : (Array.alloc xs h).1 ∉ dom h.
Proof. unfold Array.alloc. simpl. apply is_fresh. Qed.

Lemma read_alloc_old {A} (xs : list A) h r :
  r ∈ dom h → Array.read r (Array.alloc xs h).2 = Array.read r h.
Proof.
  intros Hr. unfold Array.read, Array.alloc. simpl.
  apply lookup_total_insert_ne. intros <-. by apply (is_fresh (dom h)).
Qed.

Lemma dom_alloc {A} (xs : list A) h r :
  r ∈ dom h → r ∈ dom (Array.alloc xs h).2.
Proof. intros Hr. unfold Array.alloc. simpl. rewrite dom_insert_L. set_solver. Qed.

(** ** [addMeasurement] *)

Lemma addMeasurement_list m s :
  list_of (addMeasurement m s) = list_of s ++ [m].
Proof.
  unfold list_of, addMeasurement, Array.spread_with. simpl.
  apply (read_alloc (Array.read (measurements s) (heap s) ++ [m])).
Qed.

Lemma addMeasurement_wf m s : wf (addMeasurement m s).
Proof.
  unfold wf, addMeasurement, Array.spread_with, Array.alloc. simpl.
  rewrite dom_insert_L. set_solver.
Qed.

(** Arrays that existed before keep their elements: the update builds a new
    array and leaves the previous one alone. *)
Lemma addMeasurement_old_arrays m s r :
  r ∈ dom (heap s) →
  Array.read r (heap (addMeasurement m s)) = Array.read r (heap s).
Proof.
  intros Hr. unfold addMeasurement, Array.spread_with. simpl.
  by apply (read_alloc_old (Array.read (measurements s) (heap s) ++ [m])).
Qed.

(** ** [getMeasurementById] *)

Lemma getMeasurementById_result id s :
  (getMeasurementById id s).1 =
  List.find (λ m, String.eqb (Measurement.id m) id) (list_of s).
Proof. reflexivity. Qed.

Lemma getMeasurementById_state id s : (getMeasurementById id s).2 = s.
Proof. by destruct s. Qed.

(** ** [getLatestMeasurement] *)

Lemma getLatestMeasurement_result s :
  (getLatestMeasurement s).1 =
  head (Array.stable_sort byDateDescending (list_of s)).
Proof.
  unfold getLatestMeasurement, list_of, mbind, array_bind, Array.bind,
    Array.length, Array.spread, Array.sort, Array.get, Array.alloc. simpl.
  destruct (Nat.eqb_spec (length (Array.read (measurements s) (heap s))) 0)
    as [Hn|Hn]; simpl.
  - apply nil_length_inv in Hn. by rewrite Hn.
  - unfold Array.read at 1. rewrite lookup_total_insert_eq.
    unfold Array.read at 1. rewrite lookup_total_insert_eq.
    by rewrite head_lookup.
Qed.

Lemma getLatestMeasurement_measurements s :
  measurements (getLatestMeasurement s).2 = measurements s.
Proof.
  unfold getLatestMeasurement.
  by case_match.
Qed.

(** The call sorts a copy: every array that existed before the call,
    [measurements] among them, has the same elements in the same order
    afterwards. *)
Lemma getLatestMeasurement_old_arrays s r :
  r ∈ dom (heap s) →
  Array.read r (heap (getLatestMeasurement s).2) = Array.read r (heap s).
Proof.
  intros Hr.
  unfold getLatestMeasurement, mbind, array_bind, Array.bind,
    Array.length, Array.spread, Array.sort, Array.get, Array.alloc. simpl.
  destruct (length (Array.read (measurements s) (heap s)) =? 0)%nat; simpl; [done|].
  assert (fresh (dom (heap s)) ≠ r) as Hne.
  { intros <-. by apply (is_fresh (dom (heap s))). }
  unfold Array.read. by rewrite !lookup_total_insert_ne.
Qed.

Lemma getLatestMeasurement_dom s r :
  r ∈ dom (heap s) → r ∈ dom (heap (getLatestMeasurement s).2).
Proof.
  intros Hr.
  unfold getLatestMeasurement, mbind, array_bind, Array.bind,
    Array.length, Array.spread, Array.sort, Array.get, Array.alloc. simpl.
  destruct (length (Array.read (measurements s) (heap s)) =? 0)%nat; simpl; [done|].
  rewrite !dom_insert_L. set_solver.
Qed.

Lemma getLatestMeasurement_wf s : wf s → wf (getLatestMeasurement s).2.
Proof.
  unfold wf. intros Hwf. rewrite getLatestMeasurement_measurements.
  by apply getLatestMeasurement_dom.
Qed.

Lemma getLatestMeasurement_list s :
  wf s → list_of (getLatestMeasurement s).2 = list_of s.
Proof.
  intros Hwf. unfold list_of. rewrite getLatestMeasurement_measurements.
  by apply getLatestMeasurement_old_arrays.
Qed.

(** The list a consumer observes is the same after the call, for every
    state: when the cell refers to no array the list is empty and the
    function returns at once. *)
Lemma getLatestMeasurement_list_of s :
  list_of (getLatestMeasurement s).2 = list_of s.
Proof.
  destruct (decide (wf s)) as [Hwf|Hwf]; [by apply getLatestMeasurement_list|].
  assert (list_of s = []) as Hnil.
  { unfold list_of, Array.read. rewrite lookup_total_alt.
    apply not_elem_of_dom in Hwf. by rewrite Hwf. }
  unfold list_of in *.
  unfold getLatestMeasurement, mbind, array_bind, Array.bind, Array.length.
  simpl. by rewrite Hnil.
Qed.

Lemma step_length o s :
  (length (list_of s) ≤ length (list_of (step o s)))%nat.
Proof.
  destruct o as [m|id|]; unfold step.
  - rewrite addMeasurement_list, length_app. simpl. lia.
  - by rewrite getMeasurementById_state.
  - by rewrite getLatestMeasurement_list_of.
Qed.

Lemma run_length ops s :
  (length (list_of s) ≤ length (list_of (run ops s)))%nat.
Proof.
  revert s. induction ops as [|o ops IH]; intros s; simpl; [done|].
  etransitivity; [apply (step_length o)|apply IH].
Qed.

Lemma repeat_getLatestMeasurement_results n s :
  (repeat_getLatestMeasurement n s).1 =
  replicate n (getLatestMeasurement s).1.
Proof.
  revert s. induction n as [|n IH]; intros s; simpl; [done|].
  pose proof (getLatestMeasurement_list_of s) as Hl.
  pose proof (getLatestMeasurement_result s) as Hres.
  destruct (getLatestMeasurement s) as [r s'] eqn:Hs.
  specialize (IH s').
  destruct (repeat_getLatestMeasurement n s') as [rs s''] eqn:Hr. simpl in *.
  rewrite IH. f_equal. f_equal.
  by rewrite getLatestMeasurement_result, Hl.
Qed.

Lemma find_first_match {A} (p : A → bool) (l : list A) :
  match List.find p l with
  | Some x => ∃ l1 l2, l = l1 ++ x :: l2 ∧ p x = true ∧ Forall (λ y, p y = false) l1
  | None => Forall (λ y, p y = false) l
  end.
Proof.
  induction l as [|y l IH]; simpl; [constructor|].
  destruct (p y) eqn:Hy.
  - exists [], l. by repeat split.
  - destruct (List.find p l) as [x|].
    + destruct IH as (l1 & l2 & -> & Hx & Hl1).
      exists (y :: l1), l2. repeat split; [done|by constructor].
    + by constructor.
Qed.

Lemma find_app_no_match {A} (p : A → bool) (l1 l2 : list A) :
  Forall (λ y, p y = false) l1 → List.find p (l1 ++ l2) = List.find p l2.
Proof. induction 1 as [|y l1 Hy _ IH]; simpl; [done|]. by rewrite Hy. Qed.

End MeasurementContextFacts.


(* ===================================================================== *)
(** * Properties of the measurement store *)
(* ===================================================================== *)

Module MeasurementStore.
Import MeasurementContext MeasurementContextFacts.

Implicit Types (s : State) (m : Measurement.t).

(** C3. [getLatestMeasurement] returns [undefined] on an empty collection;
    on a non-empty one it returns an element of the collection whose date
    is greater than or equal to the date of every element. *)
Theorem getLatestMeasurement_latest s :
  (list_of s = [] → (getLatestMeasurement s).1 = None) ∧
  (list_of s ≠ [] →
   ∃ m, (getLatestMeasurement s).1 = Some m
        ∧ m ∈ list_of s
        ∧ ∀ m', m' ∈ list_of s → time m' ≤ time m).
Proof.
  rewrite getLatestMeasurement_result, byDateDescending_descending. split.
  - by intros ->.
  - intros Hne.
    destruct (first_maximum_exists time _ Hne) as (l1 & m & l2 & Heq & H1 & H2).
    exists m. rewrite Heq. split; [by apply head_stable_sort|].
    split; [set_solver|].
    intros m' Hm'. rewrite Forall_forall in H1, H2.
    apply elem_of_app in Hm' as [Hm'|Hm'].
    + specialize (H1 _ Hm'). simpl in H1. lia.
    + apply elem_of_cons in Hm' as [->|Hm']; [lia|]. by apply H2.
Qed.

Lemma getLatestMeasurement_latest_witness :
  (getLatestMeasurement (Examples.store [])).1 = None
  ∧ ∃ m, (getLatestMeasurement
            (Examples.store [Examples.jan; Examples.feb_a; Examples.dec])).1 = Some m
         ∧ time Examples.jan ≤ time m.
Proof.
  split.
  - by apply (getLatestMeasurement_latest (Examples.store [])).
  - destruct (getLatestMeasurement_latest
                (Examples.store [Examples.jan; Examples.feb_a; Examples.dec]))
      as [_ H].
    destruct H as (m & Hm & _ & Hmax); [done|].
    exists m. split; [exact Hm|]. apply Hmax. left.
Defined.

(** C4. Tie-break: when [A] and [B] carry the same, greatest date and [A]
    was inserted before [B] ([A] being the earliest inserted measurement of
    that date), [getLatestMeasurement] returns [A], and so does every one of
    any number of calls made in a row. *)
Theorem getLatestMeasurement_tie s (A B : Measurement.t) l1 l2 l3 n :
  list_of s = l1 ++ A :: l2 ++ B :: l3 →
  time A = time B →
  Forall (λ m, time m < time A) l1 →
  Forall (λ m, time m ≤ time A) (l2 ++ l3) →
  (getLatestMeasurement s).1 = Some A
  ∧ (repeat_getLatestMeasurement n s).1 = replicate n (Some A).
Proof.
  intros Hl HAB H1 H23.
  assert ((getLatestMeasurement s).1 = Some A) as HA.
  { rewrite getLatestMeasurement_result, byDateDescending_descending, Hl.
    apply head_stable_sort; [done|].
    apply Forall_app in H23 as [H2 H3].
    apply Forall_app. split; [done|]. constructor; [lia|done]. }
  split; [done|]. by rewrite repeat_getLatestMeasurement_results, HA.
Qed.

Lemma getLatestMeasurement_tie_witness :
  (getLatestMeasurement (Examples.store [Examples.feb_a; Examples.feb_b])).1
    = Some Examples.feb_a
  ∧ (repeat_getLatestMeasurement 3
       (Examples.store [Examples.feb_a; Examples.feb_b])).1
    = [Some Examples.feb_a; Some Examples.feb_a; Some Examples.feb_a].
Proof.
  apply (getLatestMeasurement_tie
           (Examples.store [Examples.feb_a; Examples.feb_b])
           Examples.feb_a Examples.feb_b [] [] [] 3).
  - reflexivity.
  - reflexivity.
  - constructor.
  - constructor.
Defined.

(** The same with earlier and later insertions around the tied pair. *)
Example getLatestMeasurement_tie_among_others :
  (getLatestMeasurement
     (Examples.store [Examples.jan; Examples.feb_a; Examples.dec; Examples.feb_b])).1
  = Some Examples.feb_a.
Proof. reflexivity. Qed.

(** C5, as stated, fails: the store does not deduplicate ids, and the
    lookup returns the earliest record of an id.  Here the store holds
    [jan]; adding [jan_again], a valid measurement with the same id, and
    looking that id up yields [jan]. *)
Lemma addMeasurement_lookup_shadowed :
  Examples.valid Examples.jan_again = true
  ∧ wf (Examples.store [Examples.jan])
  ∧ (getMeasurementById (Measurement.id Examples.jan_again)
       (addMeasurement Examples.jan_again (Examples.store [Examples.jan]))).1
    = Some Examples.jan
  ∧ Some Examples.jan ≠ Some Examples.jan_again.
Proof.
  split; [reflexivity|]. split.
  { unfold wf, Examples.store, MeasurementProvider. simpl.
    rewrite dom_singleton_L. set_solver. }
  split; [reflexivity|].
  intros H. apply (f_equal (fmap time)) in H. discriminate H.
Qed.

(** C5, amended. When no measurement in the store carries the id of [m],
    after [addMeasurement(m)] the call [getMeasurementById(m.id)] returns
    [m]. *)
Theorem addMeasurement_getMeasurementById m s :
  Forall (λ m', Measurement.id m' ≠ Measurement.id m) (list_of s) →
  (getMeasurementById (Measurement.id m) (addMeasurement m s)).1 = Some m.
Proof.
  intros Hfresh.
  rewrite getMeasurementById_result, addMeasurement_list.
  rewrite find_app_no_match.
  - simpl. by rewrite String.eqb_refl.
  - eapply Forall_impl; [exact Hfresh|]. simpl. intros m' Hne.
    by apply String.eqb_neq.
Qed.

Lemma addMeasurement_getMeasurementById_witness :
  (getMeasurementById (Measurement.id Examples.feb_a)
     (addMeasurement Examples.feb_a
        (Examples.store [Examples.jan; Examples.dec]))).1
  = Some Examples.feb_a.
Proof.
  apply (addMeasurement_getMeasurementById Examples.feb_a
           (Examples.store [Examples.jan; Examples.dec])).
  repeat constructor; simpl; discriminate.
Defined.

(** C6. [addMeasurement(m)] makes the list one longer, with [m] last and
    the earlier elements in their earlier order in front of it; and no run
    of store operations makes the list shorter. *)
Theorem addMeasurement_append_only m s :
  length (list_of (addMeasurement m s)) = S (length (list_of s))
  ∧ last (list_of (addMeasurement m s)) = Some m
  ∧ take (length (list_of s)) (list_of (addMeasurement m s)) = list_of s
  ∧ list_of (addMeasurement m s) = list_of s ++ [m]
  ∧ ∀ ops, (length (list_of s) ≤ length (list_of (run ops s)))%nat.
Proof.
  rewrite addMeasurement_list. repeat split.
  - rewrite length_app. simpl. lia.
  - apply last_snoc.
  - by rewrite take_app_length.
  - intros ops. apply run_length.
Qed.

(** C7. [getMeasurementById(id)] leaves the store as it is and returns the
    first element, in insertion order, whose id is [id] (whether or not
    later elements share that id); it returns [undefined] exactly when no
    element has that id. *)
Theorem getMeasurementById_first_match id s :
  (getMeasurementById id s).2 = s
  ∧ match (getMeasurementById id s).1 with
    | Some m =>
        ∃ l1 l2, list_of s = l1 ++ m :: l2
                 ∧ Measurement.id m = id
                 ∧ Forall (λ m', Measurement.id m' ≠ id) l1
    | None => Forall (λ m', Measurement.id m' ≠ id) (list_of s)
    end.
Proof.
  split; [apply getMeasurementById_state|].
  rewrite getMeasurementById_result.
  pose proof (find_first_match
                (λ m, String.eqb (Measurement.id m) id) (list_of s)) as H.
  destruct (List.find _ (list_of s)) as [m|].
  - destruct H as (l1 & l2 & Heq & Hm & Hl1).
    exists l1, l2. split; [done|]. split; [by apply String.eqb_eq|].
    eapply Forall_impl; [exact Hl1|]. simpl. intros m'. apply String.eqb_neq.
  - eapply Forall_impl; [exact H|]. simpl. intros m'. apply String.eqb_neq.
Qed.

(** With duplicate ids the earlier record is the one returned. *)
Example getMeasurementById_duplicate :
  (getMeasurementById "jan"
     (Examples.store [Examples.dec; Examples.jan; Examples.jan_again])).1
  = Some Examples.jan.
Proof. reflexivity. Qed.

(** C9. Outside a [MeasurementProvider], [useMeasurements] throws an error
    that says so; below a provider it returns the provider's value. *)
Theorem useMeasurements_requires_provider :
  useMeasurements None
  = Js.Throw "useMeasurements must be used within a MeasurementProvider"
  ∧ ∀ s, useMeasurements (Some s) = Js.Return s.
Proof. split; [reflexivity|]. intros s. reflexivity. Qed.

(** C10. [getLatestMeasurement] is a pure query: the [measurements] cell
    refers to the same array after the call, the list a consumer observes
    has the same elements in the same order, and so has every array that
    existed before the call (the sort acts on a copy). *)
Theorem getLatestMeasurement_pure s :
  measurements (getLatestMeasurement s).2 = measurements s
  ∧ list_of (getLatestMeasurement s).2 = list_of s
  ∧ ∀ r, r ∈ dom (heap s) →
         Array.read r (heap (getLatestMeasurement s).2) = Array.read r (heap s).
Proof.
  split; [apply getLatestMeasurement_measurements|].
  split; [apply getLatestMeasurement_list_of|].
  intros r. apply getLatestMeasurement_old_arrays.
Qed.

(** The stored list is not reordered even when it is not in date order. *)
Lemma getLatestMeasurement_pure_witness :
  list_of (getLatestMeasurement
             (Examples.store [Examples.dec; Examples.feb_a; Examples.jan])).2
  = [Examples.dec; Examples.feb_a; Examples.jan].
Proof.
  exact (proj1 (proj2 (getLatestMeasurement_pure
           (Examples.store [Examples.dec; Examples.feb_a; Examples.jan])))).
Defined.

End MeasurementStore.

(* ===================================================================== *)
(** * The data-entry form *)
(* ===================================================================== *)

Module DataEntryFacts.
Import DataEntry.

Implicit Types (s : State) (a : App) (fd : PartialMeasurement.t).


Lemma size_insert_ne_0 (k v : string) (m : gmap string string) :
  (size (<[k := v]> m) =? 0)%nat = false.
Proof.
  apply Nat.eqb_neq. intros H. apply map_size_empty_iff in H.
  by apply insert_non_empty in H.
Qed.

(** [validateForm] returns [true] exactly when none of the checks fires. *)
Lemma validateForm_passes s : (validateForm s).1 = passes (formData s).
Proof.
  unfold validateForm, newErrors, passes. simpl.
  fold (weight_missing (formData s)) (bodyFat_missing (formData s))
       (muscle_missing (formData s)) (bodyFat_out_of_range (formData s))
       (water_out_of_range (formData s)).
  destruct (weight_missing _), (bodyFat_missing _), (muscle_missing _),
    (bodyFat_out_of_range _), (water_out_of_range _); simpl;
    first [apply size_insert_ne_0 | reflexivity].
Qed.

Lemma validateForm_formData s : formData (validateForm s).2 = formData s.
Proof. reflexivity. Qed.

Lemma validateForm_errors s : errors (validateForm s).2 = newErrors (formData s).
Proof. reflexivity. Qed.

Lemma validateForm_setFormSubmitted b s :
  (validateForm (setFormSubmitted b s)).1 = (validateForm s).1.
Proof. reflexivity. Qed.

(** After a successful validation the three required fields hold numbers,
    so the non-null assertions of [handleSubmit] read numbers. *)
Lemma validateForm_required_numbers s :
  (validateForm s).1 = true →
  is_Some (PartialMeasurement.weight (formData s))
  ∧ is_Some (PartialMeasurement.bodyFatPercentage (formData s))
  ∧ is_Some (PartialMeasurement.skeletalMuscleMass (formData s)).
Proof.
  rewrite validateForm_passes. unfold passes, weight_missing, bodyFat_missing,
    muscle_missing, Js.lnot.
  destruct (PartialMeasurement.weight _), (PartialMeasurement.bodyFatPercentage _),
    (PartialMeasurement.skeletalMuscleMass _); simpl; intros H;
    rewrite ?andb_false_r in H; try discriminate H; eauto.
Qed.

(** ** [handleSubmit], by the outcome of the validation *)

Section handleSubmit.
Variable calculateBMI : float → float → float.
Variables (user : User.t) (uuidv4 : string) (now : Js.Date).

Lemma handleSubmit_rejected a :
  (validateForm (component a)).1 = false →
  handleSubmit calculateBMI user uuidv4 now a =
  mkApp (mkState (formData (component a)) (newErrors (formData (component a))) true)
        (context a) (location a).
Proof.
  intros H. unfold handleSubmit.
  rewrite <- (validateForm_setFormSubmitted true) in H.
  destruct (validateForm (setFormSubmitted true (component a))) as [v s'] eqn:Hv.
  simpl in H. subst v. simpl.
  unfold validateForm in Hv. by injection Hv as _ <-.
Qed.

Lemma handleSubmit_accepted a :
  (validateForm (component a)).1 = true →
  handleSubmit calculateBMI user uuidv4 now a =
  mkApp (mkState (formData (component a)) (newErrors (formData (component a))) true)
        (MeasurementContext.addMeasurement
           (newMeasurement calculateBMI user uuidv4 now (formData (component a)))
           (context a))
        "/".
Proof.
  intros H. unfold handleSubmit.
  rewrite <- (validateForm_setFormSubmitted true) in H.
  destruct (validateForm (setFormSubmitted true (component a))) as [v s'] eqn:Hv.
  simpl in H. subst v. simpl.
  unfold validateForm in Hv. by injection Hv as _ <-.
Qed.

End handleSubmit.

(** ** The messages [validateForm] records, field by field *)

Ltac by_checks fd :=
  unfold newErrors;
  fold (weight_missing fd) (bodyFat_missing fd) (muscle_missing fd)
       (bodyFat_out_of_range fd) (water_out_of_range fd);
  destruct (weight_missing fd), (bodyFat_missing fd), (muscle_missing fd),
    (bodyFat_out_of_range fd), (water_out_of_range fd); reflexivity.

Lemma newErrors_weight fd :
  newErrors fd !! "weight" =
  if weight_missing fd
  then Some "Weight is required and must be greater than 0" else None.
Proof. by_checks fd. Qed.

Lemma newErrors_bodyFatPercentage fd :
  newErrors fd !! "bodyFatPercentage" =
  if bodyFat_out_of_range fd
  then Some "Body fat percentage must be between 0 and 100"
  else if bodyFat_missing fd
  then Some "Body fat percentage is required and must be non-negative"
  else None.
Proof. by_checks fd. Qed.

Lemma newErrors_skeletalMuscleMass fd :
  newErrors fd !! "skeletalMuscleMass" =
  if muscle_missing fd
  then Some "Skeletal muscle mass is required and must be greater than 0"
  else None.
Proof. by_checks fd. Qed.

Lemma newErrors_waterPercentage fd :
  newErrors fd !! "waterPercentage" =
  if water_out_of_range fd
  then Some "Water percentage must be between 0 and 100" else None.
Proof. by_checks fd. Qed.

End DataEntryFacts.

(* ===================================================================== *)
(** * Properties of the data-entry form *)
(* ===================================================================== *)

Module DataEntrySpec.
Import DataEntry DataEntryFacts.

(** C1. The submission at the boundary values weight = 0.1,
    bodyFatPercentage = 0, skeletalMuscleMass = 0.1 is not accepted by the
    code: [!formData.bodyFatPercentage] holds for the number 0, so
    [validateForm] records "Body fat percentage is required and must be
    non-negative" and returns [false], and [handleSubmit] returns before
    [addMeasurement]; the store and the path stay as they were. *)
Theorem boundary_submission_rejected :
  (validateForm (component (Examples.app
     (Examples.form Examples.tenth 0 Examples.tenth)))).1 = false
  ∧ errors (component (Examples.submit (Examples.app
      (Examples.form Examples.tenth 0 Examples.tenth))))
    = {[ "bodyFatPercentage" :=
           "Body fat percentage is required and must be non-negative" ]}
  ∧ context (Examples.submit (Examples.app
      (Examples.form Examples.tenth 0 Examples.tenth)))
    = context (Examples.app (Examples.form Examples.tenth 0 Examples.tenth))
  ∧ location (Examples.submit (Examples.app
      (Examples.form Examples.tenth 0 Examples.tenth))) = "/data-entry".
Proof. repeat split; reflexivity. Qed.

(** With any body fat percentage above zero in place of 0 the same
    submission goes through, here with 0.1: the measurement is appended. *)
Example boundary_submission_positive_body_fat :
  (validateForm (component (Examples.app
     (Examples.form Examples.tenth Examples.tenth Examples.tenth)))).1 = true
  ∧ Measurement.id <$>
      MeasurementContext.list_of (context (Examples.submit (Examples.app
        (Examples.form Examples.tenth Examples.tenth Examples.tenth))))
    = ["jan"; "c0ffee"].
Proof. split; reflexivity. Qed.

(** C2, as stated, fails for [metabolicAge]: the record receives
    [formData.metabolicAge] as it is.  The user types 80, 20 and 35 into the
    required inputs of the freshly rendered form and submits: the form data
    has no [metabolicAge], the submission passes validation, and the
    measurement appended to the store has no [metabolicAge] either. *)
Lemma metabolicAge_stays_absent :
  formData Examples.typed = Examples.form 80 20 35
  ∧ PartialMeasurement.metabolicAge (formData Examples.typed) = None
  ∧ (validateForm (component (Examples.page Examples.typed))).1 = true
  ∧ Measurement.metabolicAge <$>
      last (MeasurementContext.list_of
              (context (Examples.submit (Examples.page Examples.typed))))
    = Some None
  ∧ (None : Js.value) ≠ Some 0%float.
Proof. repeat split; try reflexivity. discriminate. Qed.

Section submission.
Variable calculateBMI : float → float → float.
Variables (user : User.t) (uuidv4 : string) (now : Js.Date).

(** C2, amended. For a submission that passes validation, the record
    [newMeasurement] is constructed and appended to the store, and each of
    [visceralFat], [waterPercentage] and [basalMetabolicRate] whose value in
    the form data is falsy (it is absent, 0 or [NaN], as for an input left
    untouched or emptied) is 0 in that record; [metabolicAge] is copied from
    the form data as it is. *)
Theorem falsy_optional_fields_default_to_zero a :
  (validateForm (component a)).1 = true →
  ∃ m, MeasurementContext.list_of
         (context (handleSubmit calculateBMI user uuidv4 now a))
       = MeasurementContext.list_of (context a) ++ [m]
    ∧ (Js.to_boolean (PartialMeasurement.visceralFat (formData (component a)))
       = false →
       Measurement.visceralFat m = Some 0%float)
    ∧ (Js.to_boolean (PartialMeasurement.waterPercentage (formData (component a)))
       = false →
       Measurement.waterPercentage m = Some 0%float)
    ∧ (Js.to_boolean (PartialMeasurement.basalMetabolicRate (formData (component a)))
       = false →
       Measurement.basalMetabolicRate m = Some 0%float)
    ∧ Measurement.metabolicAge m
      = PartialMeasurement.metabolicAge (formData (component a)).
Proof.
  intros Hv.
  exists (newMeasurement calculateBMI user uuidv4 now (formData (component a))).
  rewrite handleSubmit_accepted by done. cbn [context].
  split; [apply MeasurementContextFacts.addMeasurement_list|].
  unfold newMeasurement. cbn [Measurement.visceralFat Measurement.waterPercentage
    Measurement.basalMetabolicRate Measurement.metabolicAge].
  unfold Js.lor.
  repeat split; try (intros ->); reflexivity.
Qed.

(** C8. A submission with weight = 0 fails validation with the message for
    the [weight] field; one with bodyFatPercentage = 150 fails with the
    out-of-range message for [bodyFatPercentage]; and whenever
    [validateForm] fails, [handleSubmit] stops before [addMeasurement]: the
    store (and the path) are what they were. *)
Theorem failed_validation_blocks_submission a :
  (PartialMeasurement.weight (formData (component a)) = Some 0%float →
   (validateForm (component a)).1 = false
   ∧ errors (component (handleSubmit calculateBMI user uuidv4 now a)) !! "weight"
     = Some "Weight is required and must be greater than 0")
  ∧ (PartialMeasurement.bodyFatPercentage (formData (component a)) = Some 150%float →
     (validateForm (component a)).1 = false
     ∧ errors (component (handleSubmit calculateBMI user uuidv4 now a))
         !! "bodyFatPercentage"
       = Some "Body fat percentage must be between 0 and 100")
  ∧ ((validateForm (component a)).1 = false →
     context (handleSubmit calculateBMI user uuidv4 now a) = context a
     ∧ location (handleSubmit calculateBMI user uuidv4 now a) = location a).
Proof.
  split; [|split].
  - intros Hw.
    assert (weight_missing (formData (component a)) = true) as Hm
      by (unfold weight_missing; rewrite Hw; reflexivity).
    assert ((validateForm (component a)).1 = false) as Hv.
    { rewrite validateForm_passes. unfold passes. by rewrite Hm. }
    split; [done|]. rewrite handleSubmit_rejected by done. simpl.
    by rewrite newErrors_weight, Hm.
  - intros Hb.
    assert (bodyFat_out_of_range (formData (component a)) = true) as Hm
      by (unfold bodyFat_out_of_range; rewrite Hb; reflexivity).
    assert ((validateForm (component a)).1 = false) as Hv.
    { rewrite validateForm_passes. unfold passes. rewrite Hm. simpl.
      by rewrite andb_false_r. }
    split; [done|]. rewrite handleSubmit_rejected by done. simpl.
    by rewrite newErrors_bodyFatPercentage, Hm.
  - intros Hv. by rewrite handleSubmit_rejected.
Qed.

End submission.

Lemma falsy_optional_fields_default_to_zero_witness :
  PartialMeasurement.visceralFat (formData Examples.typed_and_emptied)
    = Some PrimFloat.nan
  ∧ PartialMeasurement.waterPercentage (formData Examples.typed_and_emptied)
    = Some 0%float
  ∧ ∃ m, MeasurementContext.list_of
           (context (Examples.submit (Examples.page Examples.typed_and_emptied)))
         = [Examples.jan; m]
      ∧ Measurement.visceralFat m = Some 0%float
      ∧ Measurement.waterPercentage m = Some 0%float
      ∧ Measurement.basalMetabolicRate m = Some 0%float.
Proof.
  split; [reflexivity|]. split; [reflexivity|].
  destruct (falsy_optional_fields_default_to_zero
              Examples.calculateBMI Examples.user "c0ffee" (Js.mkDate 1711929600000)
              (Examples.page Examples.typed_and_emptied))
    as (m & Hl & Hv & Hw & Hb & _); [reflexivity|].
  exists m. split; [exact Hl|].
  split; [apply Hv; reflexivity|]. split; [apply Hw; reflexivity|apply Hb; reflexivity].
Defined.

Lemma failed_validation_blocks_submission_witness :
  (errors (component (Examples.submit (Examples.app (Examples.form 0 150 35))))
     !! "weight" = Some "Weight is required and must be greater than 0")
  ∧ (errors (component (Examples.submit (Examples.app (Examples.form 0 150 35))))
       !! "bodyFatPercentage" = Some "Body fat percentage must be between 0 and 100")
  ∧ context (Examples.submit (Examples.app (Examples.form 0 150 35)))
    = context (Examples.app (Examples.form 0 150 35)).
Proof.
  destruct (failed_validation_blocks_submission
              Examples.calculateBMI Examples.user "c0ffee" (Js.mkDate 1711929600000)
              (Examples.app (Examples.form 0 150 35)))
    as (Hw & Hb & Hc).
  split; [by apply Hw|]. split; [by apply Hb|]. by apply Hc.
Defined.

End DataEntrySpec.

(* ===================================================================== *)
(** * The order of binary64 numbers *)
(* ===================================================================== *)

Module FloatOrder.

Implicit Types x y : float.

Lemma SFcompare_antisym (a b : spec_float) :
  SFcompare b a = option_map CompOpp (SFcompare a b).
Proof.
  destruct a as [sa|sa| |sa ma ea], b as [sb|sb| |sb mb eb]; simpl;
    try reflexivity; try (by destruct sa); try (by destruct sb);
    try (by destruct sa, sb).
  destruct sa, sb; simpl; try reflexivity.
  - rewrite (Z.compare_antisym ea eb).
    destruct (ea ?= eb)%Z; simpl; try reflexivity.
    by rewrite (Pos.compare_cont_antisym ma mb Eq).
  - rewrite (Z.compare_antisym ea eb).
    destruct (ea ?= eb)%Z; simpl; try reflexivity.
    by rewrite (Pos.compare_cont_antisym ma mb Eq).
Qed.

Lemma SFcompare_refl (a : spec_float) :
  SFcompare a a =
  if match a with S754_nan => true | _ => false end then None else Some Eq.
Proof.
  destruct a as [s|s| |s m e]; simpl; try reflexivity; try (by destruct s).
  rewrite Z.compare_refl. destruct s; by rewrite Pos.compare_cont_refl.
Qed.

Lemma is_nan_spec x :
  is_nan x = match Prim2SF x with S754_nan => true | _ => false end.
Proof.
  unfold is_nan. rewrite FloatAxioms.eqb_spec. unfold SFeqb.
  rewrite SFcompare_refl. by destruct (Prim2SF x).
Qed.

(** The three comparisons of [x] with [y], read off one [SFcompare]. *)
Lemma comparisons x y :
  (x <? y)%float = match SFcompare (Prim2SF x) (Prim2SF y) with
                   | Some Lt => true | _ => false end
  ∧ (x <=? y)%float = match SFcompare (Prim2SF x) (Prim2SF y) with
                      | Some (Lt | Eq) => true | _ => false end
  ∧ (x =? y)%float = match SFcompare (Prim2SF x) (Prim2SF y) with
                     | Some Eq => true | _ => false end
  ∧ (y <? x)%float = match SFcompare (Prim2SF x) (Prim2SF y) with
                     | Some Gt => true | _ => false end
  ∧ (y <=? x)%float = match SFcompare (Prim2SF x) (Prim2SF y) with
                      | Some (Gt | Eq) => true | _ => false end
  ∧ (y =? x)%float = match SFcompare (Prim2SF x) (Prim2SF y) with
                     | Some Eq => true | _ => false end.
Proof.
  rewrite !FloatAxioms.ltb_spec, !FloatAxioms.leb_spec, !FloatAxioms.eqb_spec.
  unfold SFltb, SFleb, SFeqb.
  rewrite (SFcompare_antisym (Prim2SF x) (Prim2SF y)).
  by destruct (SFcompare (Prim2SF x) (Prim2SF y)) as [[]|].
Qed.

(** Two numbers are comparable unless one of them is [NaN]. *)
Lemma comparable x y :
  is_nan x = false → is_nan y = false →
  is_Some (SFcompare (Prim2SF x) (Prim2SF y)).
Proof.
  rewrite !is_nan_spec.
  destruct (Prim2SF x) as [[]|[]| |[] ? ?], (Prim2SF y) as [[]|[]| |[] ? ?];
    simpl; intros; try done; eauto.
Qed.

Lemma compared_not_nan x y :
  is_Some (SFcompare (Prim2SF x) (Prim2SF y)) →
  is_nan x = false ∧ is_nan y = false.
Proof.
  rewrite !is_nan_spec. intros [c Hc].
  by destruct (Prim2SF x), (Prim2SF y).
Qed.

(** [!x || x <= 0] fails exactly for the numbers above zero, and so does
    [!x || x < 0]: zero and [NaN] are caught by [!x]. *)
Lemma required_positive (v : Js.value) :
  Js.lnot v || Js.le v 0 = negb (is_positive v).
Proof.
  destruct v as [x|]; [|reflexivity].
  unfold Js.lnot, Js.le, Js.to_boolean, is_positive. simpl.
  rewrite is_nan_spec.
  destruct (comparisons x 0) as (_ & Hle & Heq & Hgt & _). rewrite Hle, Heq, Hgt.
  change (Prim2SF 0) with (S754_zero false).
  by destruct (Prim2SF x) as [[]|[]| |[] ? ?].
Qed.

Lemma required_non_negative (v : Js.value) :
  Js.lnot v || Js.lt v 0 = negb (is_positive v).
Proof.
  destruct v as [x|]; [|reflexivity].
  unfold Js.lnot, Js.lt, Js.to_boolean, is_positive. simpl.
  rewrite is_nan_spec.
  destruct (comparisons x 0) as (Hlt & _ & Heq & Hgt & _). rewrite Hlt, Heq, Hgt.
  change (Prim2SF 0) with (S754_zero false).
  by destruct (Prim2SF x) as [[]|[]| |[] ? ?].
Qed.

Lemma to_boolean_not_nan x : Js.to_boolean (Some x) = true → is_nan x = false.
Proof.
  unfold Js.to_boolean. destruct (is_nan x); [|done].
  by rewrite orb_true_r.
Qed.

Lemma positive_to_boolean (v : Js.value) :
  is_positive v = true → Js.to_boolean v = true.
Proof.
  intros Hp. pose proof (required_positive v) as H. rewrite Hp in H.
  apply orb_false_elim in H as [H _]. unfold Js.lnot in H.
  by destruct (Js.to_boolean v).
Qed.

(** A truthy number passes [x < 0 || x > 100] exactly when it lies in
    (0, 100]. *)
Lemma range_percentage (v : Js.value) :
  Js.to_boolean v = true →
  Js.lt v 0 || Js.gt v 100 = negb (is_percentage v).
Proof.
  destruct v as [x|]; [|done]. intros Ht.
  pose proof (to_boolean_not_nan x Ht) as Hnan.
  pose proof (required_non_negative (Some x)) as H0.
  unfold Js.lnot in H0. rewrite Ht in H0. simpl in H0.
  unfold Js.lt, Js.gt, is_percentage. simpl. unfold Js.lt in H0. simpl in H0.
  rewrite H0. destruct (0 <? x)%float; simpl; [|done].
  destruct (comparisons x 100) as (_ & Hle & _ & Hgt & _). rewrite Hle, Hgt.
  destruct (comparable x 100 Hnan eq_refl) as [c Hc]. rewrite Hc.
  by destruct c.
Qed.

Lemma percentage_positive (v : Js.value) :
  is_percentage v = true → is_positive v = true.
Proof. destruct v as [x|]; simpl; [|done]. by intros [? _]%andb_prop. Qed.

(** Above zero implies at least zero. *)
Lemma ltb_leb x y : (x <? y)%float = true → (x <=? y)%float = true.
Proof.
  destruct (comparisons x y) as (Hlt & Hle & _). rewrite Hlt, Hle.
  by destruct (SFcompare (Prim2SF x) (Prim2SF y)) as [[]|].
Qed.

End FloatOrder.

(* ===================================================================== *)
(** * More on the data-entry form *)
(* ===================================================================== *)

Module DataEntryExtras.
Import DataEntry DataEntryFacts FloatOrder.

Implicit Types (s : State) (a : App) (fd : PartialMeasurement.t).

Lemma bodyFat_checks fd :
  negb (bodyFat_missing fd) && negb (bodyFat_out_of_range fd)
  = is_percentage (PartialMeasurement.bodyFatPercentage fd).
Proof.
  unfold bodyFat_missing, bodyFat_out_of_range.
  rewrite required_non_negative.
  pose proof (percentage_positive (PartialMeasurement.bodyFatPercentage fd)) as Hqp.
  pose proof (positive_to_boolean (PartialMeasurement.bodyFatPercentage fd)) as Hpt.
  pose proof (range_percentage (PartialMeasurement.bodyFatPercentage fd)) as Hr.
  destruct (Js.to_boolean _); simpl.
  - rewrite Hr by done. rewrite !negb_involutive.
    destruct (is_percentage _); [by rewrite Hqp|apply andb_false_r].
  - destruct (is_positive _); [by discriminate Hpt|].
    by destruct (is_percentage _); [discriminate Hqp|].
Qed.

Lemma water_check fd :
  negb (water_out_of_range fd)
  = negb (Js.to_boolean (PartialMeasurement.waterPercentage fd))
    || is_percentage (PartialMeasurement.waterPercentage fd).
Proof.
  unfold water_out_of_range.
  pose proof (range_percentage (PartialMeasurement.waterPercentage fd)) as Hr.
  destruct (Js.to_boolean _); simpl; [|done].
  rewrite Hr by done. apply negb_involutive.
Qed.

Lemma validateForm_verdict s :
  (validateForm s).1
  = is_positive (PartialMeasurement.weight (formData s))
    && is_percentage (PartialMeasurement.bodyFatPercentage (formData s))
    && is_positive (PartialMeasurement.skeletalMuscleMass (formData s))
    && (negb (Js.to_boolean (PartialMeasurement.waterPercentage (formData s)))
        || is_percentage (PartialMeasurement.waterPercentage (formData s))).
Proof.
  rewrite validateForm_passes. unfold passes.
  rewrite <- bodyFat_checks, <- water_check.
  unfold weight_missing, muscle_missing. rewrite !required_positive, !negb_involutive.
  destruct (is_positive (PartialMeasurement.weight _)),
    (is_positive (PartialMeasurement.skeletalMuscleMass _)),
    (bodyFat_missing _), (bodyFat_out_of_range _), (water_out_of_range _);
    reflexivity.
Qed.

(** X1. [validateForm] returns [true] exactly when weight and skeletal
    muscle mass are numbers above 0, the body fat percentage is a number
    above 0 and at most 100, and the water percentage is absent, 0, [NaN] or
    a number above 0 and at most 100. *)
Theorem validateForm_accepts s :
  (validateForm s).1
  = is_positive (PartialMeasurement.weight (formData s))
    && is_percentage (PartialMeasurement.bodyFatPercentage (formData s))
    && is_positive (PartialMeasurement.skeletalMuscleMass (formData s))
    && (negb (Js.to_boolean (PartialMeasurement.waterPercentage (formData s)))
        || is_percentage (PartialMeasurement.waterPercentage (formData s))).
Proof. apply validateForm_verdict. Qed.

Section submission.
Variable calculateBMI : float → float → float.
Variables (user : User.t) (uuidv4 : string) (now : Js.Date).

(** X2. The record an accepted submission appends to the store has a
    weight and a skeletal muscle mass above 0, a body fat percentage above 0
    and at most 100 that [pbf] repeats, the body fat mass
    weight * (percentage / 100), a water percentage between 0 and 100, and
    numbers other than [NaN] for visceral fat and basal metabolic rate. *)
Theorem accepted_record_in_range a :
  (validateForm (component a)).1 = true →
  ∃ m, MeasurementContext.list_of
         (context (handleSubmit calculateBMI user uuidv4 now a))
       = MeasurementContext.list_of (context a) ++ [m]
    ∧ PrimFloat.ltb 0 (Measurement.weight m) = true
    ∧ PrimFloat.ltb 0 (Measurement.skeletalMuscleMass m) = true
    ∧ PrimFloat.ltb 0 (Measurement.bodyFatPercentage m) = true
    ∧ PrimFloat.leb (Measurement.bodyFatPercentage m) 100 = true
    ∧ Measurement.pbf m = Measurement.bodyFatPercentage m
    ∧ Measurement.bodyFatMass m
      = (Measurement.weight m * (Measurement.bodyFatPercentage m / 100))%float
    ∧ (∃ w, Measurement.waterPercentage m = Some w
            ∧ PrimFloat.leb 0 w = true ∧ PrimFloat.leb w 100 = true)
    ∧ (∃ v, Measurement.visceralFat m = Some v ∧ PrimFloat.is_nan v = false)
    ∧ (∃ r, Measurement.basalMetabolicRate m = Some r ∧ PrimFloat.is_nan r = false).
Proof.
  intros Hv.
  exists (newMeasurement calculateBMI user uuidv4 now (formData (component a))).
  rewrite handleSubmit_accepted by done.
  split; [apply MeasurementContextFacts.addMeasurement_list|].
  rewrite validateForm_verdict in Hv.
  apply andb_prop in Hv as [[[Hw Hb]%andb_prop Hm]%andb_prop Hwp].
  destruct (formData (component a)) as [w bfm p k vf wp bmr ma]. simpl in *.
  destruct w as [w|], p as [p|], k as [k|]; try discriminate. simpl in *.
  apply andb_prop in Hb as [Hb0 Hb100].
  repeat (split; [done|]).
  split; [|split].
  - unfold Js.lor. destruct (Js.to_boolean wp) eqn:Ht; simpl in Hwp.
    + destruct wp as [x|]; [|done]. simpl in Hwp.
      apply andb_prop in Hwp as [H0 H100].
      exists x. split; [done|]. split; [by apply ltb_leb|done].
    + exists 0%float. by repeat split.
  - unfold Js.lor. destruct (Js.to_boolean vf) eqn:Ht.
    + destruct vf as [x|]; [|done]. exists x. split; [done|].
      by apply to_boolean_not_nan.
    + by exists 0%float.
  - unfold Js.lor. destruct (Js.to_boolean bmr) eqn:Ht.
    + destruct bmr as [x|]; [|done]. exists x. split; [done|].
      by apply to_boolean_not_nan.
    + by exists 0%float.
Qed.

End submission.

Lemma accepted_record_in_range_witness :
  ∃ m, MeasurementContext.list_of
         (context (Examples.submit (Examples.app (Examples.form 80 20 35))))
       = [Examples.jan; m]
    ∧ PrimFloat.ltb 0 (Measurement.weight m) = true
    ∧ PrimFloat.leb (Measurement.bodyFatPercentage m) 100 = true.
Proof.
  destruct (accepted_record_in_range
              Examples.calculateBMI Examples.user "c0ffee" (Js.mkDate 1711929600000)
              (Examples.app (Examples.form 80 20 35)))
    as (m & Hl & Hw & _ & _ & Hp & _); [reflexivity|].
  exists m. split; [exact Hl|]. split; [exact Hw|exact Hp].
Defined.

(** X16. Which message the body fat percentage gets: none for a number
    above 0 and at most 100; the "required" message when the value is
    absent, 0 or [NaN]; the "between 0 and 100" message for every other
    number, negative ones included. *)
Theorem bodyFatPercentage_message fd :
  newErrors fd !! "bodyFatPercentage" =
  if is_percentage (PartialMeasurement.bodyFatPercentage fd) then None
  else if Js.to_boolean (PartialMeasurement.bodyFatPercentage fd)
  then Some "Body fat percentage must be between 0 and 100"
  else Some "Body fat percentage is required and must be non-negative".
Proof.
  rewrite newErrors_bodyFatPercentage, <- bodyFat_checks.
  unfold bodyFat_missing, bodyFat_out_of_range, Js.lnot.
  pose proof (range_percentage (PartialMeasurement.bodyFatPercentage fd)) as Hr.
  pose proof (bodyFat_checks fd) as Hc.
  unfold bodyFat_missing, bodyFat_out_of_range, Js.lnot in Hc.
  destruct (Js.to_boolean _); simpl in *.
  - rewrite Hr in * by done.
    destruct (Js.lt _ 0), (is_percentage _); simpl in *; done.
  - done.
Qed.

(** X17. A required input that is rendered empty (its value is absent, 0
    or [NaN], so [formData.x || ''] is the empty string) never passes
    validation: [validateForm] returns [false] and records a message for
    that input. *)
Theorem empty_looking_required_input_rejected name s :
  name ∈ [Field.weight; Field.bodyFatPercentage; Field.skeletalMuscleMass] →
  inputValue name s = None →
  (validateForm s).1 = false
  ∧ is_Some (errors (validateForm s).2 !! Field.name name).
Proof.
  intros Hin Hshown.
  assert (Js.lnot (field name (formData s)) = true) as Hfalsy.
  { unfold inputValue in Hshown. unfold Js.lnot.
    destruct (Js.to_boolean (field name (formData s))) eqn:Ht; [|done].
    by destruct (field name (formData s)). }
  rewrite validateForm_passes, validateForm_errors. unfold passes.
  repeat (apply elem_of_cons in Hin as [->|Hin]); [| | |by apply elem_of_nil in Hin];
    simpl in Hfalsy; simpl.
  - assert (weight_missing (formData s) = true) as Hm
      by (unfold weight_missing; by rewrite Hfalsy).
    rewrite newErrors_weight, Hm. eauto.
  - assert (bodyFat_missing (formData s) = true) as Hm
      by (unfold bodyFat_missing; by rewrite Hfalsy).
    rewrite newErrors_bodyFatPercentage, Hm. split.
    + by rewrite andb_false_r.
    + destruct (bodyFat_out_of_range _); eauto.
  - assert (muscle_missing (formData s) = true) as Hm
      by (unfold muscle_missing; by rewrite Hfalsy).
    rewrite newErrors_skeletalMuscleMass, Hm. split; [|eauto].
    by rewrite andb_false_r.
Qed.

Lemma empty_looking_required_input_rejected_witness :
  (validateForm (mkState PartialMeasurement.initial ∅ false)).1 = false.
Proof.
  apply (empty_looking_required_input_rejected Field.weight
           (mkState PartialMeasurement.initial ∅ false)).
  - set_solver.
  - reflexivity.
Defined.

(** ** Editing the form *)

Lemma handleChange_formData name v s :
  formData (handleChange name v s) = with_field name v (formData s).
Proof. unfold handleChange. by destruct (Js.string_to_boolean _). Qed.

Lemma handleChange_formSubmitted name v s :
  formSubmitted (handleChange name v s) = formSubmitted s.
Proof. unfold handleChange. by destruct (Js.string_to_boolean _). Qed.

Lemma Field_name_inj : Inj (=) (=) Field.name.
Proof. intros [] []; simpl; intros H; first [reflexivity | discriminate H]. Qed.

Lemma string_to_boolean_Some (o : option string) :
  Js.string_to_boolean o = true → ∃ m, o = Some m ∧ m ≠ "".
Proof.
  destruct o as [m|]; simpl; [|done]. intros H. exists m. split; [done|].
  intros ->. done.
Qed.

(** X3. Editing an input removes the message shown below that input, but
    the keys of [errors] stay as they are (the message is overwritten with
    the empty string), so the summary line that a rejected submission
    switched on stays on while the user corrects the form. *)
Theorem handleChange_keeps_summary name v s :
  messageShown name (handleChange name v s) = None
  ∧ dom (errors (handleChange name v s)) = dom (errors s)
  ∧ errorSummaryShown (handleChange name v s) = errorSummaryShown s.
Proof.
  unfold errorSummaryShown. rewrite handleChange_formSubmitted.
  unfold handleChange.
  destruct (Js.string_to_boolean (errors s !! Field.name name)) eqn:Ht.
  - apply string_to_boolean_Some in Ht as (m & Hm & _). simpl.
    split; [|split].
    + unfold messageShown. simpl. rewrite lookup_insert_eq. simpl.
      by destruct name.
    + rewrite dom_insert_L. apply elem_of_dom_2 in Hm.
      apply set_eq. intros k. rewrite elem_of_union, elem_of_singleton.
      split; [intros [->|?]; done|by right].
    + by rewrite map_size_insert_Some by eauto.
  - split; [|done]. unfold messageShown. simpl. rewrite Ht. by destruct name.
Qed.

(** X4. [handleChange] writes the parsed number into the field of the
    edited input and into no other field, and it touches no other input's
    message. *)
Theorem handleChange_one_field name v s :
  field name (formData (handleChange name v s)) = Some v
  ∧ PartialMeasurement.bodyFatMass (formData (handleChange name v s))
    = PartialMeasurement.bodyFatMass (formData s)
  ∧ ∀ name', name' ≠ name →
      field name' (formData (handleChange name v s)) = field name' (formData s)
      ∧ errors (handleChange name v s) !! Field.name name'
        = errors s !! Field.name name'.
Proof.
  rewrite handleChange_formData.
  split; [by destruct (formData s), name|].
  split; [by destruct (formData s), name|].
  intros name' Hne. split.
  - by destruct (formData s), name, name'.
  - unfold handleChange. destruct (Js.string_to_boolean _); [|done]. simpl.
    apply lookup_insert_ne. intros Heq. by apply Field_name_inj in Heq.
Qed.

(** X5. When the text of a required input does not parse to a number
    (it is empty, say), [handleChange] stores [NaN], and the next
    [validateForm] fails with the message of that input. *)
Theorem nan_in_required_field_rejected s :
  ((validateForm (handleChange Field.weight PrimFloat.nan s)).1 = false
   ∧ errors (validateForm (handleChange Field.weight PrimFloat.nan s)).2 !! "weight"
     = Some "Weight is required and must be greater than 0")
  ∧ ((validateForm (handleChange Field.bodyFatPercentage PrimFloat.nan s)).1 = false
     ∧ errors (validateForm (handleChange Field.bodyFatPercentage PrimFloat.nan s)).2
         !! "bodyFatPercentage"
       = Some "Body fat percentage is required and must be non-negative")
  ∧ ((validateForm (handleChange Field.skeletalMuscleMass PrimFloat.nan s)).1 = false
     ∧ errors (validateForm (handleChange Field.skeletalMuscleMass PrimFloat.nan s)).2
         !! "skeletalMuscleMass"
       = Some "Skeletal muscle mass is required and must be greater than 0").
Proof.
  rewrite !validateForm_verdict, !validateForm_errors, !handleChange_formData.
  rewrite newErrors_weight, newErrors_bodyFatPercentage, newErrors_skeletalMuscleMass.
  destruct (formData s) as [w bfm p k vf wp bmr ma]. simpl.
  repeat split; try reflexivity.
  - by rewrite andb_false_r.
  - by rewrite andb_false_r.
Qed.

(** The messages of a rejected form are not empty, so they are rendered. *)
Lemma newErrors_messageShown fd b name :
  name ∈ [Field.weight; Field.bodyFatPercentage;
          Field.skeletalMuscleMass; Field.waterPercentage] →
  messageShown name (mkState fd (newErrors fd) b) = newErrors fd !! Field.name name.
Proof.
  intros Hin. unfold messageShown. simpl.
  assert (Js.string_to_boolean (newErrors fd !! Field.name name)
          = bool_decide (is_Some (newErrors fd !! Field.name name))) as ->.
  { repeat (apply elem_of_cons in Hin as [->|Hin]); [| | | |by apply elem_of_nil in Hin];
      simpl.
    - rewrite newErrors_weight. by destruct (weight_missing fd).
    - rewrite newErrors_bodyFatPercentage.
      by destruct (bodyFat_out_of_range fd), (bodyFat_missing fd).
    - rewrite newErrors_skeletalMuscleMass. by destruct (muscle_missing fd).
    - rewrite newErrors_waterPercentage. by destruct (water_out_of_range fd). }
  destruct (newErrors fd !! Field.name name) eqn:Hl; simpl.
  - repeat (apply elem_of_cons in Hin as [->|Hin]); try done.
    by apply elem_of_nil in Hin.
  - repeat (apply elem_of_cons in Hin as [->|Hin]); try done.
    by apply elem_of_nil in Hin.
Qed.

Lemma newErrors_keys fd k :
  is_Some (newErrors fd !! k) →
  k ∈ ["weight"; "bodyFatPercentage"; "skeletalMuscleMass"; "waterPercentage"].
Proof.
  intros [m Hk]. unfold newErrors in Hk.
  repeat match type of Hk with
         | context [if ?c then _ else _] => destruct c
         end;
    repeat (apply lookup_insert_Some in Hk as [[<- _]|[_ Hk]]; [set_solver|]);
    by rewrite lookup_empty in Hk.
Qed.

Section rejected.
Variable calculateBMI : float → float → float.
Variables (user : User.t) (uuidv4 : string) (now : Js.Date).

(** X6. After a rejected submission the form shows the summary line and,
    below at least one of the four validated inputs, a message; no message
    is ever recorded under another key. *)
Theorem rejected_submission_shows_messages a :
  (validateForm (component a)).1 = false →
  errorSummaryShown (component (handleSubmit calculateBMI user uuidv4 now a)) = true
  ∧ (∃ name, is_Some (messageShown name
                (component (handleSubmit calculateBMI user uuidv4 now a))))
  ∧ ∀ k, is_Some (errors (component (handleSubmit calculateBMI user uuidv4 now a)) !! k) →
         k ∈ ["weight"; "bodyFatPercentage"; "skeletalMuscleMass"; "waterPercentage"].
Proof.
  intros Hv. rewrite handleSubmit_rejected by done. simpl.
  split; [|split].
  - unfold errorSummaryShown. simpl. unfold validateForm in Hv. simpl in Hv.
    apply Nat.eqb_neq in Hv. apply Nat.ltb_lt. lia.
  - rewrite validateForm_passes in Hv. unfold passes in Hv.
    destruct (weight_missing _) eqn:Hw.
    { exists Field.weight. rewrite newErrors_messageShown by set_solver.
      simpl. rewrite newErrors_weight, Hw. eauto. }
    destruct (muscle_missing _) eqn:Hm.
    { exists Field.skeletalMuscleMass. rewrite newErrors_messageShown by set_solver.
      simpl. rewrite newErrors_skeletalMuscleMass, Hm. eauto. }
    destruct (water_out_of_range _) eqn:Hwp.
    { exists Field.waterPercentage. rewrite newErrors_messageShown by set_solver.
      simpl. rewrite newErrors_waterPercentage, Hwp. eauto. }
    exists Field.bodyFatPercentage. rewrite newErrors_messageShown by set_solver.
    simpl. rewrite newErrors_bodyFatPercentage.
    destruct (bodyFat_out_of_range _), (bodyFat_missing _); eauto; done.
  - apply newErrors_keys.
Qed.

End rejected.

Lemma rejected_submission_shows_messages_witness :
  errorSummaryShown
    (component (Examples.submit (Examples.app (Examples.form 80 120 35)))) = true.
Proof.
  apply (rejected_submission_shows_messages
           Examples.calculateBMI Examples.user "c0ffee" (Js.mkDate 1711929600000)
           (Examples.app (Examples.form 80 120 35))).
  reflexivity.
Defined.

End DataEntryExtras.

(* ===================================================================== *)
(** * More on the measurement store *)
(* ===================================================================== *)

Module MeasurementStoreExtras.
Import MeasurementContext MeasurementContextFacts.

Implicit Types (s : State) (m : Measurement.t).

Lemma find_app {A} (p : A → bool) (l1 l2 : list A) :
  List.find p (l1 ++ l2) =
  match List.find p l1 with
  | Some x => Some x
  | None => List.find p l2
  end.
Proof. induction l1 as [|y l1 IH]; simpl; [done|]. by destruct (p y). Qed.

Lemma step_list o s :
  list_of (step o s) = list_of s ++ added [o].
Proof.
  destruct o as [m|id|]; unfold step.
  - apply addMeasurement_list.
  - rewrite getMeasurementById_state. symmetry. apply (app_nil_r (list_of s)).
  - rewrite getLatestMeasurement_list_of. symmetry. apply (app_nil_r (list_of s)).
Qed.

Lemma run_list ops s : list_of (run ops s) = list_of s ++ added ops.
Proof.
  revert s. induction ops as [|o ops IH]; intros s; simpl.
  - by rewrite app_nil_r.
  - fold (run ops (step o s)). rewrite IH, step_list, <- app_assoc. f_equal.
    by destruct o.
Qed.

Lemma step_old_arrays o s r :
  r ∈ dom (heap s) →
  r ∈ dom (heap (step o s))
  ∧ Array.read r (heap (step o s)) = Array.read r (heap s).
Proof.
  intros Hr. destruct o as [m|id|]; unfold step.
  - split; [|by apply addMeasurement_old_arrays].
    unfold addMeasurement, Array.spread_with. simpl.
    by apply (dom_alloc (Array.read (measurements s) (heap s) ++ [m])).
  - by rewrite getMeasurementById_state.
  - split; [by apply getLatestMeasurement_dom|by apply getLatestMeasurement_old_arrays].
Qed.

Lemma run_old_arrays ops s r :
  r ∈ dom (heap s) →
  r ∈ dom (heap (run ops s))
  ∧ Array.read r (heap (run ops s)) = Array.read r (heap s).
Proof.
  revert s. induction ops as [|o ops IH]; intros s Hr; simpl; [done|].
  destruct (step_old_arrays o s r Hr) as [Hr' Heq].
  destruct (IH (step o s) Hr') as [Hr'' Heq'].
  split; [exact Hr''|]. by rewrite <- Heq.
Qed.

Lemma latest_after_add m s :
  (getLatestMeasurement (addMeasurement m s)).1 =
  match (getLatestMeasurement s).1 with
  | None => Some m
  | Some latest => if time latest <? time m then Some m else Some latest
  end.
Proof.
  rewrite !getLatestMeasurement_result, addMeasurement_list,
    byDateDescending_descending.
  destruct (decide (list_of s = [])) as [->|Hne]; [done|].
  destruct (first_maximum_exists time _ Hne) as (l1 & x & l2 & -> & H1 & H2).
  rewrite (head_stable_sort time l1 x l2) by done.
  destruct (Z.ltb_spec (time x) (time m)) as [Hlt|Hge].
  - change (m :: nil) with ([] ++ [m]). rewrite app_nil_l.
    apply head_stable_sort; [|constructor].
    apply Forall_app. split.
    + eapply Forall_impl; [exact H1|]. simpl. intros; lia.
    + constructor; [done|]. eapply Forall_impl; [exact H2|]. simpl. intros; lia.
  - rewrite <- app_assoc. simpl. apply head_stable_sort; [done|].
    apply Forall_app. split; [done|]. by constructor.
Qed.

Lemma lookup_after_add id m s :
  (getMeasurementById id (addMeasurement m s)).1 =
  match (getMeasurementById id s).1 with
  | Some found => Some found
  | None => if String.eqb (Measurement.id m) id then Some m else None
  end.
Proof.
  rewrite !getMeasurementById_result, addMeasurement_list, find_app. simpl.
  by destruct (String.eqb (Measurement.id m) id).
Qed.

(** X7. After any run of store operations the list is the initial list
    followed by the measurements that were added, in the order in which
    they were added: nothing is removed, replaced or reordered. *)
Theorem run_appends ops s :
  list_of (run ops s) = list_of s ++ added ops.
Proof. apply run_list. Qed.

(** X8. No run of store operations changes an array that exists already:
    [addMeasurement] builds a new array and [getLatestMeasurement] sorts a
    copy, so the seed array and every list a consumer read earlier keep
    their elements and their order. *)
Theorem run_keeps_old_arrays ops s r :
  r ∈ dom (heap s) →
  Array.read r (heap (run ops s)) = Array.read r (heap s).
Proof. intros Hr. by apply run_old_arrays. Qed.

Lemma run_keeps_old_arrays_witness :
  Array.read 0%nat
    (heap (run [AddMeasurement Examples.feb_a; GetLatestMeasurement;
                AddMeasurement Examples.dec; GetLatestMeasurement]
               (Examples.store [Examples.jan])))
  = [Examples.jan].
Proof.
  apply (run_keeps_old_arrays
           [AddMeasurement Examples.feb_a; GetLatestMeasurement;
            AddMeasurement Examples.dec; GetLatestMeasurement]
           (Examples.store [Examples.jan]) 0%nat).
  unfold Examples.store, MeasurementProvider. simpl.
  rewrite dom_singleton_L. by apply elem_of_singleton.
Defined.

(** X9. The latest measurement can be maintained incrementally: after
    [addMeasurement(m)] it is [m] when the store was empty or [m] is
    strictly later than the former latest measurement, and the former latest
    measurement otherwise (also when the dates are equal). *)
Theorem getLatestMeasurement_after_addMeasurement m s :
  (getLatestMeasurement (addMeasurement m s)).1 =
  match (getLatestMeasurement s).1 with
  | None => Some m
  | Some latest => if time latest <? time m then Some m else Some latest
  end.
Proof. apply latest_after_add. Qed.

(** X10. [addMeasurement(m)] does not change the result of a lookup that
    found a measurement before; a lookup that found none now finds [m] if
    the id is that of [m], and still finds none otherwise. *)
Theorem getMeasurementById_after_addMeasurement id m s :
  (getMeasurementById id (addMeasurement m s)).1 =
  match (getMeasurementById id s).1 with
  | Some found => Some found
  | None => if String.eqb (Measurement.id m) id then Some m else None
  end.
Proof. apply lookup_after_add. Qed.

End MeasurementStoreExtras.

(* ===================================================================== *)
(** * An accepted submission, seen from the store *)
(* ===================================================================== *)

Module SubmissionAndStore.
Import MeasurementContext MeasurementContextFacts MeasurementStoreExtras.
Import DataEntry DataEntryFacts.

Lemma getLatestMeasurement_elem_of s m :
  (getLatestMeasurement s).1 = Some m → m ∈ list_of s.
Proof.
  rewrite getLatestMeasurement_result. intros H.
  apply head_Some in H as [l Hl].
  apply (stable_sort_elem_of byDateDescending). rewrite Hl. left.
Qed.

Lemma find_no_match {A} (p : A → bool) (l : list A) :
  Forall (λ x, p x = false) l → List.find p l = None.
Proof. induction 1 as [|x l Hx _ IH]; simpl; [done|]. by rewrite Hx. Qed.

Section submission.
Variable calculateBMI : float → float → float.
Variables (user : User.t) (uuidv4 : string) (now : Js.Date).

(** X11. After an accepted submission the new record carries the id from
    [uuidv4()], the id of the user and the date from [new Date()]; it is what
    [getLatestMeasurement] returns when that date is later than every date
    in the store, and what [getMeasurementById] returns for its id when no
    stored measurement has that id. *)
Theorem accepted_submission_in_store a :
  (validateForm (component a)).1 = true →
  ∃ m, list_of (context (handleSubmit calculateBMI user uuidv4 now a))
       = list_of (context a) ++ [m]
    ∧ Measurement.id m = uuidv4
    ∧ Measurement.userId m = User.id user
    ∧ Measurement.date m = now
    ∧ (Forall (λ m', time m' < Js.getTime now) (list_of (context a)) →
       (getLatestMeasurement
          (context (handleSubmit calculateBMI user uuidv4 now a))).1 = Some m)
    ∧ (Forall (λ m', Measurement.id m' ≠ uuidv4) (list_of (context a)) →
       (getMeasurementById uuidv4
          (context (handleSubmit calculateBMI user uuidv4 now a))).1 = Some m).
Proof.
  intros Hv.
  exists (newMeasurement calculateBMI user uuidv4 now (formData (component a))).
  rewrite handleSubmit_accepted by done. cbn [context].
  split; [apply addMeasurement_list|].
  do 3 (split; [reflexivity|]). split.
  - intros Hnew. rewrite latest_after_add.
    destruct (getLatestMeasurement (context a)).1 as [latest|] eqn:Hl; [|done].
    apply getLatestMeasurement_elem_of in Hl.
    rewrite Forall_forall in Hnew. specialize (Hnew _ Hl).
    change (time (newMeasurement calculateBMI user uuidv4 now (formData (component a))))
      with (Js.getTime now).
    by destruct (Z.ltb_spec (time latest) (Js.getTime now)); [|lia].
  - intros Hfresh. rewrite lookup_after_add, getMeasurementById_result.
    rewrite find_no_match.
    + simpl. by rewrite String.eqb_refl.
    + eapply Forall_impl; [exact Hfresh|]. simpl. intros m'. apply String.eqb_neq.
Qed.

End submission.

Lemma accepted_submission_in_store_witness :
  ∃ m, (getLatestMeasurement
          (context (Examples.submit (Examples.app (Examples.form 80 20 35))))).1
       = Some m
    ∧ (getMeasurementById "c0ffee"
         (context (Examples.submit (Examples.app (Examples.form 80 20 35))))).1
      = Some m
    ∧ Measurement.id m = "c0ffee".
Proof.
  destruct (accepted_submission_in_store
              Examples.calculateBMI Examples.user "c0ffee" (Js.mkDate 1711929600000)
              (Examples.app (Examples.form 80 20 35)))
    as (m & _ & Hid & _ & _ & Hlatest & Hfound); [reflexivity|].
  exists m. split; [|split; [|exact Hid]].
  - apply Hlatest. repeat constructor.
  - apply Hfound. repeat constructor. discriminate.
Defined.

End SubmissionAndStore.

(* ===================================================================== *)
(** * Matching by derivatives *)
(* ===================================================================== *)

Module RegExpFacts.
Import RegExp.

Implicit Types (r : RegExp.t) (s : list Ascii.ascii) (c : Ascii.ascii).

Lemma matches_never s : matches Never s ↔ False.
Proof. split; [|done]. inversion 1. Qed.

Lemma matches_Empty s : matches Empty s ↔ s = [].
Proof. split; [by inversion 1|]. intros ->. constructor. Qed.

Lemma matches_Class p s : matches (Class p) s ↔ ∃ c, s = [c] ∧ p c = true.
Proof.
  split.
  - inversion 1; subst. eauto.
  - intros (c & -> & Hp). by constructor.
Qed.

Lemma matches_Seq r1 r2 s :
  matches (Seq r1 r2) s ↔ ∃ s1 s2, s = s1 ++ s2 ∧ matches r1 s1 ∧ matches r2 s2.
Proof.
  split.
  - inversion 1; subst. eauto.
  - intros (s1 & s2 & -> & H1 & H2). by constructor.
Qed.

Lemma matches_Alt r1 r2 s : matches (Alt r1 r2) s ↔ matches r1 s ∨ matches r2 s.
Proof.
  split.
  - inversion 1; subst; eauto.
  - intros [H|H]; [by apply matches_alt_l|by apply matches_alt_r].
Qed.

(** A match of [r*] against a non-empty string starts with a non-empty
    match of [r]. *)
Lemma matches_Star_cons r c s :
  matches (Star r) (c :: s) ↔
  ∃ s1 s2, s = s1 ++ s2 ∧ matches r (c :: s1) ∧ matches (Star r) s2.
Proof.
  split.
  - intros H. remember (Star r) as r' eqn:Hr. remember (c :: s) as s' eqn:Hs.
    induction H as [| | | | | |r0 s1 s2 H1 _ H2 IH2]; try discriminate.
    injection Hr as ->. destruct s1 as [|c' s1]; simpl in Hs.
    + by apply IH2.
    + injection Hs as -> <-. eauto.
  - intros (s1 & s2 & -> & H1 & H2).
    change (c :: s1 ++ s2) with ((c :: s1) ++ s2). by constructor.
Qed.

Lemma nullable_spec r : nullable r = true ↔ matches r [].
Proof.
  induction r as [| |p|r1 IH1 r2 IH2|r1 IH1 r2 IH2|r IH]; simpl.
  - by rewrite matches_never.
  - by rewrite matches_Empty.
  - rewrite matches_Class. split; [done|]. by intros (c & ? & _).
  - rewrite andb_true_iff, IH1, IH2, matches_Seq. split.
    + intros [H1 H2]. by exists [], [].
    + intros (s1 & s2 & Hs & H1 & H2). symmetry in Hs.
      apply app_eq_nil in Hs as [-> ->]. done.
  - by rewrite orb_true_iff, IH1, IH2, matches_Alt.
  - split; [constructor|done].
Qed.

Lemma derive_spec c r s : matches (derive c r) s ↔ matches r (c :: s).
Proof.
  revert s.
  induction r as [| |p|r1 IH1 r2 IH2|r1 IH1 r2 IH2|r IH]; intros s; simpl.
  - by rewrite !matches_never.
  - rewrite matches_never, matches_Empty. done.
  - rewrite matches_Class. destruct (p c) eqn:Hp.
    + rewrite matches_Empty. split.
      * intros ->. eauto.
      * by intros (c' & [= <- ->] & _).
    + rewrite matches_never. split; [done|].
      intros (c' & [= <- ->] & Hp'). congruence.
  - assert (matches (Seq r1 r2) (c :: s) ↔
            (∃ s1 s2, s = s1 ++ s2 ∧ matches r1 (c :: s1) ∧ matches r2 s2)
            ∨ (matches r1 [] ∧ matches r2 (c :: s))) as Hsplit.
    { rewrite matches_Seq. split.
      - intros ([|c' s1] & s2 & Hs & H1 & H2); simpl in Hs.
        + subst s2. by right.
        + injection Hs as <- ->. left. eauto.
      - intros [(s1 & s2 & -> & H1 & H2)|[H1 H2]].
        + by exists (c :: s1), s2.
        + by exists [], (c :: s). }
    rewrite Hsplit. destruct (nullable r1) eqn:Hn.
    + rewrite matches_Alt, matches_Seq, IH2.
      apply nullable_spec in Hn.
      setoid_rewrite IH1. tauto.
    + rewrite matches_Seq. setoid_rewrite IH1.
      assert (¬ matches r1 []) by (rewrite <- nullable_spec; congruence).
      tauto.
  - by rewrite !matches_Alt, IH1, IH2.
  - rewrite matches_Seq, matches_Star_cons. by setoid_rewrite IH.
Qed.

Lemma matches_list_spec r s : matches_list r s = true ↔ matches r s.
Proof.
  revert r. induction s as [|c s IH]; intros r; simpl.
  - apply nullable_spec.
  - by rewrite IH, derive_spec.
Qed.

(** [[p]*] and [[p]+] *)
Lemma matches_Star_Class p s :
  matches (Star (Class p)) s ↔ Forall (λ c, p c = true) s.
Proof.
  induction s as [|c s IH].
  - split; constructor.
  - rewrite matches_Star_cons, Forall_cons. split.
    + intros (s1 & s2 & -> & H1 & H2).
      apply matches_Class in H1 as (c' & [= <- ->] & Hp).
      split; [done|]. by apply IH.
    + intros [Hp Hs]. exists [], s. split; [done|].
      split; [by constructor|by apply IH].
Qed.

Lemma matches_Plus_Class p s :
  matches (Plus (Class p)) s ↔ s ≠ [] ∧ Forall (λ c, p c = true) s.
Proof.
  unfold Plus. rewrite matches_Seq. split.
  - intros (s1 & s2 & -> & H1 & H2).
    apply matches_Class in H1 as (c & -> & Hp).
    split; [done|]. constructor; [done|]. by apply matches_Star_Class.
  - intros [Hne Hall]. destruct Hall as [|c s Hp Hs]; [done|].
    exists [c], s. split; [done|].
    split; [by constructor|by apply matches_Star_Class].
Qed.

End RegExpFacts.

(* ===================================================================== *)
(** * The profile page *)
(* ===================================================================== *)

Module ProfileFacts.
Import Profile.

Implicit Types (s : State) (fd : User.t).

(** ** [trim] *)

Lemma list_ascii_of_string_app (a b : string) :
  String.list_ascii_of_string (a +:+ b)
  = String.list_ascii_of_string a ++ String.list_ascii_of_string b.
Proof. induction a as [|c a IH]; simpl; [done|]. by rewrite IH. Qed.

Lemma not_blank_nonempty (t : string) : not_blank t = true → t ≠ "".
Proof. by intros H ->. Qed.

Lemma blank_trimStart (t : string) : not_blank t = false → Js.trimStart t = "".
Proof.
  unfold not_blank. induction t as [|c t IH]; simpl; [done|].
  destruct (Js.is_white_space c); simpl; [done|discriminate].
Qed.

Lemma not_blank_trimStart (t : string) :
  not_blank (Js.trimStart t) = not_blank t.
Proof.
  unfold not_blank. induction t as [|c t IH]; simpl; [done|].
  destruct (Js.is_white_space c) eqn:Hc; simpl; [done|]. by rewrite Hc.
Qed.

Lemma not_blank_reverse (t : string) : not_blank (Js.reverse t) = not_blank t.
Proof.
  unfold not_blank, Js.reverse. rewrite String.list_ascii_of_string_of_list_ascii.
  apply eq_true_iff_eq. rewrite !existsb_exists.
  by setoid_rewrite <- in_rev.
Qed.

Lemma not_blank_trim (t : string) : not_blank (Js.trim t) = not_blank t.
Proof.
  unfold Js.trim, Js.trimEnd.
  by rewrite not_blank_reverse, not_blank_trimStart, not_blank_reverse,
    not_blank_trimStart.
Qed.

(** [!name.trim()] holds exactly for the names made of white space only. *)
Lemma trim_truthy (t : string) :
  Js.string_to_boolean (Some (Js.trim t)) = not_blank t.
Proof.
  destruct (not_blank t) eqn:Hb.
  - rewrite <- not_blank_trim in Hb. apply not_blank_nonempty in Hb.
    simpl. by destruct (String.eqb_spec (Js.trim t) "").
  - unfold Js.trim. by rewrite (blank_trimStart t Hb).
Qed.

(** ** [validateForm] *)

Lemma profile_validateForm_verdict s :
  (validateForm s).1
  = not_blank (User.name (formData s))
    && is_positive (Some (User.age (formData s)))
    && is_positive (Some (User.height (formData s)))
    && email_ok (User.email (formData s)).
Proof.
  unfold validateForm, newErrors, email_ok. cbn [fst].
  rewrite trim_truthy, !FloatOrder.required_positive.
  destruct (not_blank _), (is_positive (Some (User.age _))),
    (is_positive (Some (User.height _))), (Js.string_to_boolean _),
    (RegExp.test _ _); simpl;
    first [apply DataEntryFacts.size_insert_ne_0 | reflexivity].
Qed.

Lemma newErrors_age fd :
  newErrors fd !! "age" =
  if is_positive (Some (User.age fd)) then None
  else Some "Age must be greater than 0".
Proof.
  unfold newErrors. rewrite !FloatOrder.required_positive.
  destruct (negb (Js.string_to_boolean _)), (is_positive (Some (User.age _))),
    (is_positive (Some (User.height _))), (_ && _); reflexivity.
Qed.

Lemma newErrors_height fd :
  newErrors fd !! "height" =
  if is_positive (Some (User.height fd)) then None
  else Some "Height must be greater than 0".
Proof.
  unfold newErrors. rewrite !FloatOrder.required_positive.
  destruct (negb (Js.string_to_boolean _)), (is_positive (Some (User.age _))),
    (is_positive (Some (User.height _))), (_ && _); reflexivity.
Qed.

Lemma handleChange_formData_age parseFloat value s :
  User.age (formData (handleChange parseFloat (AgeInput value) s))
  = numberValue parseFloat value.
Proof. unfold handleChange. by destruct (Js.string_to_boolean _). Qed.

Lemma handleChange_formData_height parseFloat value s :
  User.height (formData (handleChange parseFloat (HeightInput value) s))
  = numberValue parseFloat value.
Proof. unfold handleChange. by destruct (Js.string_to_boolean _). Qed.

End ProfileFacts.

Module ProfileExtras.
Import Profile ProfileFacts RegExpFacts.

Implicit Types (s : State) (fd : User.t).

Lemma plain_text_list (t : string) :
  plain_text t ↔
  String.list_ascii_of_string t ≠ []
  ∧ Forall (λ c, plain c = true) (String.list_ascii_of_string t).
Proof.
  unfold plain_text. split; intros [Hne Hall]; (split; [|done]).
  - intros Hnil. apply Hne. by destruct t.
  - by intros ->.
Qed.

(** X12. The email pattern [/^[^\s@]+@[^\s@]+\.[^\s@]+$/] accepts exactly
    the strings of the shape a@b.c in which a, b and c are non-empty and
    contain neither white space nor [@]. *)
Theorem emailPattern_shape (e : string) :
  RegExp.test emailPattern e = true ↔
  ∃ a b c : string,
    e = a +:+ "@" +:+ b +:+ "." +:+ c
    ∧ plain_text a ∧ plain_text b ∧ plain_text c.
Proof.
  unfold RegExp.test. rewrite matches_list_spec. unfold emailPattern.
  split.
  - intros H.
    apply matches_Seq in H as (la & s1 & He & Ha & H).
    apply matches_Seq in H as (lat & s2 & -> & Hat & H).
    apply matches_Seq in H as (lb & s3 & -> & Hb & H).
    apply matches_Seq in H as (ldot & lc & -> & Hdot & Hc).
    apply matches_Class in Hat as (c1 & -> & Hc1).
    apply matches_Class in Hdot as (c2 & -> & Hc2).
    apply Ascii.eqb_eq in Hc1 as ->. apply Ascii.eqb_eq in Hc2 as ->.
    apply matches_Plus_Class in Ha, Hb, Hc.
    exists (String.string_of_list_ascii la), (String.string_of_list_ascii lb),
      (String.string_of_list_ascii lc).
    rewrite !plain_text_list, !String.list_ascii_of_string_of_list_ascii.
    split; [|done].
    rewrite <- (String.string_of_list_ascii_of_string e), He.
    rewrite <- (String.string_of_list_ascii_of_string (_ +:+ _)).
    f_equal. rewrite !list_ascii_of_string_app,
      !String.list_ascii_of_string_of_list_ascii. done.
  - intros (a & b & c & -> & Ha & Hb & Hc).
    apply plain_text_list in Ha, Hb, Hc.
    rewrite !list_ascii_of_string_app.
    apply matches_seq; [by apply matches_Plus_Class|].
    apply matches_seq; [by apply matches_Class; eexists|].
    apply matches_seq; [by apply matches_Plus_Class|].
    apply matches_seq; [by apply matches_Class; eexists|].
    by apply matches_Plus_Class.
Qed.

(** X13. The profile form passes [validateForm] exactly when the name has
    a character that is not white space, age and height are numbers above
    0, and the email is absent, empty or matches the email pattern. *)
Theorem profile_validateForm_accepts s :
  (validateForm s).1
  = not_blank (User.name (formData s))
    && is_positive (Some (User.age (formData s)))
    && is_positive (Some (User.height (formData s)))
    && email_ok (User.email (formData s)).
Proof. apply profile_validateForm_verdict. Qed.


(** The pattern on a few addresses. *)
Example emailPattern_samples :
  RegExp.test emailPattern "ann@example.org" = true
  ∧ RegExp.test emailPattern "a.b@c.d.e" = true
  ∧ RegExp.test emailPattern "ann@example" = false
  ∧ RegExp.test emailPattern "ann@@example.org" = false
  ∧ RegExp.test emailPattern "ann smith@example.org" = false
  ∧ RegExp.test emailPattern "ann@example." = false
  ∧ RegExp.test emailPattern "" = false.
Proof. repeat split; reflexivity. Qed.

(** X15. An emptied [age] or [height] input is stored as 0 (not as
    [NaN]), and the next [validateForm] fails with the message of that
    input. *)
Theorem emptied_number_input_rejected (parseFloat : string → float) s :
  (User.age (formData (handleChange parseFloat (AgeInput "") s)) = 0%float
   ∧ (validateForm (handleChange parseFloat (AgeInput "") s)).1 = false
   ∧ errors (validateForm (handleChange parseFloat (AgeInput "") s)).2 !! "age"
     = Some "Age must be greater than 0")
  ∧ (User.height (formData (handleChange parseFloat (HeightInput "") s)) = 0%float
     ∧ (validateForm (handleChange parseFloat (HeightInput "") s)).1 = false
     ∧ errors (validateForm (handleChange parseFloat (HeightInput "") s)).2 !! "height"
       = Some "Height must be greater than 0").
Proof.
  split.
  - pose proof (handleChange_formData_age parseFloat "" s) as Ha.
    change (numberValue parseFloat "") with 0%float in Ha.
    split; [done|]. rewrite profile_validateForm_verdict. cbn [snd validateForm setErrors errors].
    rewrite newErrors_age, Ha. split; [|done].
    by rewrite andb_false_r.
  - pose proof (handleChange_formData_height parseFloat "" s) as Ha.
    change (numberValue parseFloat "") with 0%float in Ha.
    split; [done|]. rewrite profile_validateForm_verdict. cbn [snd validateForm setErrors errors].
    rewrite newErrors_height, Ha. split; [|done].
    simpl. by rewrite andb_false_r.
Qed.

End ProfileExtras.
